(** * geonav_transform: the frame-relay node, embedded and verified

    A shallow embedding of [src/src/geonav_transform.cpp] (the ROS node
    [GeonavTransform]): its datum registry ([setDatum]), its start-up
    ([run]) and its per-sample pipeline ([navOdomCallback]), together with
    the parts of tf2's LinearMath and of Eigen that the node calls.

    Numbers.  The node computes on C++ [double]s.  The embedding is written
    once, over an arbitrary carrier [D] with the operations the code uses
    ([scalar_ops]), and is then read at two carriers:
    - [float_ops]: Rocq's primitive binary64 floats, the node's own number
      type, on which every definition below evaluates;
    - [exact_ops F]: a field [F], i.e. the arithmetic without rounding, in
      which the algebraic properties (orthonormal similarity, cancellation
      of the datum offset) are theorems.

    What is not in the source tree.  [NavsatConversions::LLtoUTM]
    (navsat_conversions.h), [GeonavUtilities::appendPrefix]
    (geonav_utilities.h) and libm's [sin]/[cos] are parameters of the
    model; the constants [POSE_SIZE] and [POSITION_SIZE]
    (geonav_transform.h) are modelled from the spec. *)

From HB Require Import structures.
From mathcomp Require Import ssreflect ssrfun ssrbool eqtype ssrnat div seq.
From mathcomp Require Import choice fintype bigop.
From mathcomp Require Import ssralg ssrnum ssrint rat poly matrix mxalgebra mxpoly.
From mathcomp Require Import ring_tactic field_tactic.
From Corelib Require Import PrimFloat.
From Stdlib Require Import String.

Set Implicit Arguments.
Unset Strict Implicit.
Unset Printing Implicit Defensive.

Declare Scope double_scope.
Delimit Scope double_scope with dbl.

(** ** 1. The number interface *)

(** The operations on [double] that the node, tf2 and Eigen use.  [c0],
    [c1], [c2], [c05], [c001] are the literals [0.0], [1.0], [2.0], [0.5]
    and [0.01]; [dlt a b] is [a < b]; [disnan] is [std::isnan]; [dabs] is
    [fabs]. *)
Record scalar_ops (D : Type) : Type := ScalarOps {
  c0 : D;
  c1 : D;
  c2 : D;
  c05 : D;
  c001 : D;
  dadd : D -> D -> D;
  dsub : D -> D -> D;
  dmul : D -> D -> D;
  ddiv : D -> D -> D;
  dopp : D -> D;
  dsqrt : D -> D;
  dabs : D -> D;
  dlt : D -> D -> bool;
  disnan : D -> bool
}.

(** ** 2. Plain data: tf2 values, ROS messages *)

Section Data.
Variable D : Type.

(** [tf2::Vector3], [tf2::Quaternion], [tf2::Matrix3x3] (three rows
    [m_el[0..2]]) and [tf2::Transform]. *)
Record Vector3 : Type := mkVector3 { v_x : D; v_y : D; v_z : D }.
Record Quaternion : Type := mkQuaternion { q_x : D; q_y : D; q_z : D; q_w : D }.
Record Matrix3x3 : Type :=
  mkMatrix3x3 { m_el0 : Vector3; m_el1 : Vector3; m_el2 : Vector3 }.
Record Transform : Type :=
  mkTransform { m_basis : Matrix3x3; m_origin : Vector3 }.

(** [ros::Time] and [std_msgs/Header]. *)
Record Time : Type := mkTime { sec : nat; nsec : nat }.
Record Header : Type :=
  mkHeader { seq_no : nat; stamp : Time; frame_id : string }.

(** [geometry_msgs]: Point, Quaternion, Pose, PoseWithCovariance, Vector3,
    Twist, TwistWithCovariance.  The covariances are the 36-element arrays
    of the messages, kept as sequences. *)
Record Point : Type := mkPoint { p_x : D; p_y : D; p_z : D }.
Record QuaternionMsg : Type :=
  mkQuaternionMsg { o_x : D; o_y : D; o_z : D; o_w : D }.
Record Pose : Type := mkPose { position : Point; orientation : QuaternionMsg }.
Record PoseWithCovariance : Type :=
  mkPoseWithCovariance { pose_pose : Pose; pose_covariance : seq D }.
Record Vector3Msg : Type := mkVector3Msg { g_x : D; g_y : D; g_z : D }.
Record Twist : Type := mkTwist { linear : Vector3Msg; angular : Vector3Msg }.
Record TwistWithCovariance : Type :=
  mkTwistWithCovariance { twist_twist : Twist; twist_covariance : seq D }.

(** [nav_msgs/Odometry]. *)
Record Odometry : Type := mkOdometry {
  header : Header;
  child_frame_id : string;
  pose : PoseWithCovariance;
  twist : TwistWithCovariance
}.

(** [geometry_msgs/Transform] and [geometry_msgs/TransformStamped]. *)
Record TransformMsg : Type :=
  mkTransformMsg { translation : Vector3Msg; rotation : QuaternionMsg }.
Record TransformStamped : Type := mkTransformStamped {
  ts_header : Header;
  ts_child_frame_id : string;
  ts_transform : TransformMsg
}.

(** What [NavsatConversions::LLtoUTM(Lat, Long, UTMNorthing, UTMEasting,
    UTMZone)] writes through its three reference parameters. *)
Record UTM : Type := mkUTM { northing : D; easting : D; zone : string }.

(** [Eigen::MatrixXd], row by row. *)
Definition MatrixXd : Type := seq (seq D).

(** The two publishers of the node and what the node does to the outside:
    WARN and ERROR log lines, a failed [ROS_ASSERT] (which names its
    condition and aborts the process), the static transform broadcast,
    and the published samples.  (INFO and DEBUG lines, which print
    numbers, are left out.) *)
Inductive Publisher : Type := utm_pub_ | odom_pub_.

Inductive Event : Type :=
| RosWarn of string
| RosError of string
| RosAssertFailed of string
| SendTransform of TransformStamped
| Publish of Publisher & Odometry.

(** The members of [GeonavTransform] this file reads or writes;
    [warned_empty_frame_id_] is the static flag behind
    [ROS_WARN_STREAM_ONCE]. *)
Record State : Type := mkState {
  broadcast_utm_transform_ : bool;
  nav_frame_id_ : string;
  zero_altitude_ : bool;
  world_frame_id_ : string;
  base_link_frame_id_ : string;
  utm_zone_ : string;
  has_datum_ : bool;
  gps_update_time_ : Time;
  transform_utm2odom_ : Transform;
  transform_utm2odom_inverse_ : Transform;
  transform_utm2nav_ : Transform;
  transform_utm2nav_inverse_ : Transform;
  utm_world_trans_inverse_ : Transform;
  transform_utm2nav_covariance_ : MatrixXd;
  warned_empty_frame_id_ : bool
}.

(** The [datum] parameter as [run] finds it: an array of [n] entries
    whose first three (when it has them) hold three numbers; a value that
    is not an array; or a value on which a call of the XmlRpc library
    throws [XmlRpc::XmlRpcException] before anything is logged, with the
    exception's message and the type of the value as line 87 prints
    it. *)
Inductive DatumConfig : Type :=
| DatumValues of nat & D & D & D
| DatumNotArray
| DatumThrows of string & string.

(** The private parameters [run] loads. *)
Record RunParams : Type := mkRunParams {
  param_broadcast_utm_transform : bool;
  param_zero_altitude : bool;
  param_datum : option DatumConfig;
  param_tf_prefix : string
}.

End Data.

Arguments DatumNotArray {D}.
Arguments DatumThrows {D} _ _.

(** ** 3. tf2 LinearMath and Eigen, as the node uses them *)

Section Tf2.
Variable D : Type.
Variable ops : scalar_ops D.

Local Notation "0" := (c0 ops) : double_scope.
Local Notation "1" := (c1 ops) : double_scope.
Local Notation "x + y" := (dadd ops x y) : double_scope.
Local Notation "x - y" := (dsub ops x y) : double_scope.
Local Notation "x * y" := (dmul ops x y) : double_scope.
Local Notation "x / y" := (ddiv ops x y) : double_scope.
Local Notation "- x" := (dopp ops x) : double_scope.
Local Notation "x < y" := (dlt ops x y) : double_scope.
Local Open Scope double_scope.

(** [Vector3::dot], [operator-(Vector3)], component by index
    ([Vector3::operator[]]) and row by index ([Matrix3x3::operator[]]). *)
Definition dot (a b : Vector3 D) : D :=
  v_x a * v_x b + v_y a * v_y b + v_z a * v_z b.

Definition vneg (v : Vector3 D) : Vector3 D :=
  mkVector3 (- v_x v) (- v_y v) (- v_z v).

Definition vget (v : Vector3 D) (k : nat) : D :=
  match k with 0%N => v_x v | 1%N => v_y v | _ => v_z v end.

Definition getRow (m : Matrix3x3 D) (i : nat) : Vector3 D :=
  match i with 0%N => m_el0 m | 1%N => m_el1 m | _ => m_el2 m end.

Definition m_el (m : Matrix3x3 D) (i j : nat) : D := vget (getRow m i) j.

(** [Quaternion::length2]. *)
Definition length2 (q : Quaternion D) : D :=
  q_x q * q_x q + q_y q * q_y q + q_z q * q_z q + q_w q * q_w q.

(** [Matrix3x3::setRotation(q)], which is also the constructor
    [Matrix3x3(q)]. *)
Definition setRotation (q : Quaternion D) : Matrix3x3 D :=
  let d := length2 q in
  let s := c2 ops / d in
  let xs := q_x q * s in let ys := q_y q * s in let zs := q_z q * s in
  let wx := q_w q * xs in let wy := q_w q * ys in let wz := q_w q * zs in
  let xx := q_x q * xs in let xy := q_x q * ys in let xz := q_x q * zs in
  let yy := q_y q * ys in let yz := q_y q * zs in let zz := q_z q * zs in
  mkMatrix3x3
    (mkVector3 (1 - (yy + zz)) (xy - wz) (xz + wy))
    (mkVector3 (xy + wz) (1 - (xx + zz)) (yz - wx))
    (mkVector3 (xz - wy) (yz + wx) (1 - (xx + yy))).

(** [Matrix3x3::getRotation(q)]: the quaternion of a rotation matrix, by
    the branch on the trace; [temp] is the local array [temp[4]]. *)
Definition getRotation (m : Matrix3x3 D) : Quaternion D :=
  let trace := m_el m 0 0 + m_el m 1 1 + m_el m 2 2 in
  let temp :=
    if 0 < trace then
      let s := dsqrt ops (trace + 1) in
      let t3 := s * c05 ops in
      let s := c05 ops / s in
      [:: (m_el m 2 1 - m_el m 1 2) * s;
          (m_el m 0 2 - m_el m 2 0) * s;
          (m_el m 1 0 - m_el m 0 1) * s;
          t3]
    else
      let i :=
        if m_el m 0 0 < m_el m 1 1
        then (if m_el m 1 1 < m_el m 2 2 then 2%N else 1%N)
        else (if m_el m 0 0 < m_el m 2 2 then 2%N else 0%N) in
      let j := ((i + 1) %% 3)%N in
      let k := ((i + 2) %% 3)%N in
      let s := dsqrt ops (m_el m i i - m_el m j j - m_el m k k + 1) in
      let temp := set_nth 0 (nseq 4 0) i (s * c05 ops) in
      let s := c05 ops / s in
      let temp := set_nth 0 temp 3 ((m_el m k j - m_el m j k) * s) in
      let temp := set_nth 0 temp j ((m_el m j i + m_el m i j) * s) in
      set_nth 0 temp k ((m_el m k i + m_el m i k) * s) in
  mkQuaternion (nth 0 temp 0) (nth 0 temp 1) (nth 0 temp 2) (nth 0 temp 3).

(** [Matrix3x3::transpose], [Matrix3x3 * Vector3], [tdotx/y/z] and
    [Matrix3x3 * Matrix3x3]. *)
Definition transpose (m : Matrix3x3 D) : Matrix3x3 D :=
  mkMatrix3x3
    (mkVector3 (m_el m 0 0) (m_el m 1 0) (m_el m 2 0))
    (mkVector3 (m_el m 0 1) (m_el m 1 1) (m_el m 2 1))
    (mkVector3 (m_el m 0 2) (m_el m 1 2) (m_el m 2 2)).

Definition mulMV (m : Matrix3x3 D) (v : Vector3 D) : Vector3 D :=
  mkVector3 (dot (m_el0 m) v) (dot (m_el1 m) v) (dot (m_el2 m) v).

Definition tdot (m : Matrix3x3 D) (c : nat) (v : Vector3 D) : D :=
  m_el m 0 c * v_x v + m_el m 1 c * v_y v + m_el m 2 c * v_z v.

Definition mulMM (m1 m2 : Matrix3x3 D) : Matrix3x3 D :=
  mkMatrix3x3
    (mkVector3 (tdot m2 0 (m_el0 m1)) (tdot m2 1 (m_el0 m1)) (tdot m2 2 (m_el0 m1)))
    (mkVector3 (tdot m2 0 (m_el1 m1)) (tdot m2 1 (m_el1 m1)) (tdot m2 2 (m_el1 m1)))
    (mkVector3 (tdot m2 0 (m_el2 m1)) (tdot m2 1 (m_el2 m1)) (tdot m2 2 (m_el2 m1))).

(** [Transform::operator()(x)], [Transform::inverse], [Transform::mult]
    (the value it leaves in [*this]) and [Transform::getRotation]. *)
Definition xform (t : Transform D) (x : Vector3 D) : Vector3 D :=
  mkVector3 (dot (m_el0 (m_basis t)) x + v_x (m_origin t))
            (dot (m_el1 (m_basis t)) x + v_y (m_origin t))
            (dot (m_el2 (m_basis t)) x + v_z (m_origin t)).

Definition inverse (t : Transform D) : Transform D :=
  let inv := transpose (m_basis t) in
  mkTransform inv (mulMV inv (vneg (m_origin t))).

Definition mult (t1 t2 : Transform D) : Transform D :=
  mkTransform (mulMM (m_basis t1) (m_basis t2)) (xform t1 (m_origin t2)).

Definition Transform_getRotation (t : Transform D) : Quaternion D :=
  getRotation (m_basis t).

(** [tf2::toMsg] on a quaternion, on a transform into a [Pose], and on a
    transform into a [geometry_msgs/Transform]. *)
Definition toMsgQ (q : Quaternion D) : QuaternionMsg D :=
  mkQuaternionMsg (q_x q) (q_y q) (q_z q) (q_w q).

Definition toMsgPose (t : Transform D) : Pose D :=
  mkPose (mkPoint (v_x (m_origin t)) (v_y (m_origin t)) (v_z (m_origin t)))
         (toMsgQ (Transform_getRotation t)).

Definition toMsgTransform (t : Transform D) : TransformMsg D :=
  mkTransformMsg
    (mkVector3Msg (v_x (m_origin t)) (v_y (m_origin t)) (v_z (m_origin t)))
    (toMsgQ (Transform_getRotation t)).

(** A [for (size_t i = 0; i < n; ++i)] loop over a value being updated. *)
Definition for_loop (A : Type) (n : nat) (body : nat -> A -> A) (a : A) : A :=
  foldl (fun acc i => body i acc) a (iota 0 n).

(** Eigen: entry read [m(i, j)], entry write [m(i, j) = v], [setZero],
    [setIdentity], product and [transpose] of [n] by [n] matrices.  A sum
    of products is taken in the order of the index. *)
Definition mx_get (m : MatrixXd D) (i j : nat) : D := nth 0 (nth [::] m i) j.

Definition mx_set (m : MatrixXd D) (i j : nat) (v : D) : MatrixXd D :=
  set_nth [::] m i (set_nth 0 (nth [::] m i) j v).

Definition mx_tab (n : nat) (f : nat -> nat -> D) : MatrixXd D :=
  mkseq (fun i => mkseq (fun j => f i j) n) n.

Definition setZero (n : nat) : MatrixXd D := mx_tab n (fun _ _ => 0).

Definition setIdentity (n : nat) : MatrixXd D :=
  mx_tab n (fun i j => if i == j then 1 else 0).

Definition dsum (s : seq D) : D :=
  if s is x :: s' then foldl (dadd ops) x s' else 0.

Definition mx_mul (n : nat) (a b : MatrixXd D) : MatrixXd D :=
  mx_tab n (fun i j => dsum [seq mx_get a i k * mx_get b k j | k <- iota 0 n]).

Definition mx_transpose (n : nat) (a : MatrixXd D) : MatrixXd D :=
  mx_tab n (fun i j => mx_get a j i).

End Tf2.

(** ** 4. The node *)

(** Modelled from the spec: the constants [POSE_SIZE] and [POSITION_SIZE]
    of geonav_transform.h, which is not in the source tree.  The spec's
    covariance is 6 by 6 (position and orientation, 3 each), and the code
    fills columns 3, 4, 5 of the rows [rInd + POSITION_SIZE]. *)
Definition POSE_SIZE : nat := 6.
Definition POSITION_SIZE : nat := 3.

Section Node.
Variable D : Type.
Variable ops : scalar_ops D.

(** [NavsatConversions::LLtoUTM(lat, lon, ...)]. *)
Variable LLtoUTM : D -> D -> UTM D.

Local Notation "0" := (c0 ops) : double_scope.
Local Notation "x * y" := (dmul ops x y) : double_scope.
Local Notation "x < y" := (dlt ops x y) : double_scope.
Local Open Scope double_scope.

(** Writes to single members of the node. *)
Definition set_datum_members (st : State D) (z : string)
    (t tinv : Transform D) : State D :=
  mkState (broadcast_utm_transform_ st) (nav_frame_id_ st) (zero_altitude_ st)
    (world_frame_id_ st) (base_link_frame_id_ st) z true
    (gps_update_time_ st) t tinv
    (transform_utm2nav_ st) (transform_utm2nav_inverse_ st)
    (utm_world_trans_inverse_ st) (transform_utm2nav_covariance_ st)
    (warned_empty_frame_id_ st).

Definition set_nav_frame_id (st : State D) (f : string) (w : bool) : State D :=
  mkState (broadcast_utm_transform_ st) f (zero_altitude_ st)
    (world_frame_id_ st) (base_link_frame_id_ st) (utm_zone_ st)
    (has_datum_ st) (gps_update_time_ st) (transform_utm2odom_ st)
    (transform_utm2odom_inverse_ st)
    (transform_utm2nav_ st) (transform_utm2nav_inverse_ st)
    (utm_world_trans_inverse_ st) (transform_utm2nav_covariance_ st) w.

Definition set_nav_members (st : State D) (t tinv : Transform D)
    (cov : MatrixXd D) : State D :=
  mkState (broadcast_utm_transform_ st) (nav_frame_id_ st) (zero_altitude_ st)
    (world_frame_id_ st) (base_link_frame_id_ st) (utm_zone_ st)
    (has_datum_ st) (gps_update_time_ st) (transform_utm2odom_ st)
    (transform_utm2odom_inverse_ st) t tinv
    (utm_world_trans_inverse_ st) cov (warned_empty_frame_id_ st).

Definition set_run_params (st : State D) (b z : bool) : State D :=
  mkState b (nav_frame_id_ st) z
    (world_frame_id_ st) (base_link_frame_id_ st) (utm_zone_ st)
    (has_datum_ st) (gps_update_time_ st) (transform_utm2odom_ st)
    (transform_utm2odom_inverse_ st)
    (transform_utm2nav_ st) (transform_utm2nav_inverse_ st)
    (utm_world_trans_inverse_ st) (transform_utm2nav_covariance_ st)
    (warned_empty_frame_id_ st).

Definition set_frame_ids (st : State D) (w b : string) : State D :=
  mkState (broadcast_utm_transform_ st) (nav_frame_id_ st) (zero_altitude_ st)
    w b (utm_zone_ st)
    (has_datum_ st) (gps_update_time_ st) (transform_utm2odom_ st)
    (transform_utm2odom_inverse_ st)
    (transform_utm2nav_ st) (transform_utm2nav_inverse_ st)
    (utm_world_trans_inverse_ st) (transform_utm2nav_covariance_ st)
    (warned_empty_frame_id_ st).

(** The constructor.  Its initialiser list sets the flags and the frame
    names and resizes the covariance (kept here as zeros: the callback
    zeroes it before every use); [ros::Time] constructs to zero;
    [has_datum_] and the five [tf2::Transform] members are left as they
    are in memory, so the constructor takes them as given. *)
Definition GeonavTransform_ctor (has_datum0 : bool)
    (t1 t2 t3 t4 t5 : Transform D) : State D :=
  mkState false ""%string false "odom"%string "base_link"%string ""%string
    has_datum0 (mkTime 0 0) t1 t2 t3 t4 t5
    (setZero ops POSE_SIZE) false.

(** A default-constructed [nav_msgs::Odometry]: every number zero, every
    string empty. *)
Definition Odometry_default : Odometry D :=
  mkOdometry (mkHeader 0 (mkTime 0 0) ""%string) ""%string
    (mkPoseWithCovariance
       (mkPose (mkPoint 0 0 0) (mkQuaternionMsg 0 0 0 0)) (nseq 36 0))
    (mkTwistWithCovariance
       (mkTwist (mkVector3Msg 0 0 0) (mkVector3Msg 0 0 0)) (nseq 36 0)).

(** [x.z = (zero_altitude_ ? 0.0 : x.z)] on a point and on a translation. *)
Definition zero_alt_point (st : State D) (p : Point D) : Point D :=
  mkPoint (p_x p) (p_y p) (if zero_altitude_ st then 0 else p_z p).

Definition zero_alt_pose (st : State D) (p : Pose D) : Pose D :=
  mkPose (zero_alt_point st (position p)) (orientation p).

Definition zero_alt_transform (st : State D) (t : TransformMsg D) :
    TransformMsg D :=
  mkTransformMsg
    (mkVector3Msg (g_x (translation t)) (g_y (translation t))
       (if zero_altitude_ st then 0 else g_z (translation t)))
    (rotation t).

(** [GeonavTransform::setDatum(lat, lon, alt, q)]; [now] is what
    [ros::Time::now()] returns for the broadcast's stamp. *)
Definition setDatum (st : State D) (lat lon alt : D) (q : Quaternion D)
    (now : Time) : State D * seq (Event D) :=
  let utm := LLtoUTM lat lon in
  let utm_y := northing utm in
  let utm_x := easting utm in
  let t := mkTransform (setRotation ops q) (mkVector3 utm_x utm_y alt) in
  let st := set_datum_members st (zone utm) t (inverse ops t) in
  let utm_transform_stamped :=
    mkTransformStamped (mkHeader 0 now (world_frame_id_ st)) "utm"%string
      (zero_alt_transform st (toMsgTransform ops (transform_utm2odom_ st))) in
  (st, [:: SendTransform utm_transform_stamped]).

(** The test [good_gps] of the callback. *)
Definition good_gps (msg : Odometry D) : bool :=
  let p := position (pose_pose (pose msg)) in
  [&& ~~ disnan ops (p_x p), ~~ disnan ops (p_y p) & ~~ disnan ops (p_z p)].

(** Lines 228 to 239: the 3 by 3 matrix [rot] and the 6 by 6 operator
    [rot_6d] built from it. *)
Definition callback_rot (st : State D) : Matrix3x3 D :=
  setRotation ops (Transform_getRotation ops (utm_world_trans_inverse_ st)).

Definition make_rot_6d (rot : Matrix3x3 D) : MatrixXd D :=
  for_loop POSITION_SIZE
    (fun rInd rot_6d =>
       let rot_6d := mx_set ops rot_6d rInd 0 (v_x (getRow rot rInd)) in
       let rot_6d := mx_set ops rot_6d rInd 1 (v_y (getRow rot rInd)) in
       let rot_6d := mx_set ops rot_6d rInd 2 (v_z (getRow rot rInd)) in
       let rot_6d :=
         mx_set ops rot_6d (rInd + POSITION_SIZE) 3 (v_x (getRow rot rInd)) in
       let rot_6d :=
         mx_set ops rot_6d (rInd + POSITION_SIZE) 4 (v_y (getRow rot rInd)) in
       mx_set ops rot_6d (rInd + POSITION_SIZE) 5 (v_z (getRow rot rInd)))
    (setIdentity ops POSE_SIZE).

(** Lines 218 to 226: the sample's covariance array read into the matrix. *)
Definition populate_covariance (cov : seq D) : MatrixXd D :=
  for_loop POSE_SIZE
    (fun row m =>
       for_loop POSE_SIZE
         (fun col m => mx_set ops m row col (nth 0 cov (row * POSE_SIZE + col)))
         m)
    (setZero ops POSE_SIZE).

(** Line 241: [rot_6d * cov * rot_6d.transpose()]. *)
Definition rotate_covariance (rot : Matrix3x3 D) (cov : MatrixXd D) :
    MatrixXd D :=
  let rot_6d := make_rot_6d rot in
  mx_mul ops POSE_SIZE (mx_mul ops POSE_SIZE rot_6d cov)
    (mx_transpose ops POSE_SIZE rot_6d).

(** Lines 253 to 260: the matrix copied into the message's array. *)
Definition copy_covariance (m : MatrixXd D) (out : seq D) : seq D :=
  for_loop POSE_SIZE
    (fun i out =>
       for_loop POSE_SIZE
         (fun j out => set_nth 0 out (POSITION_SIZE * i + j) (mx_get ops m i j))
         out)
    out.

(** The sample's orientation as the [tf2::Quaternion] of line 211. *)
Definition msg_quaternion (msg : Odometry D) : Quaternion D :=
  let o := orientation (pose_pose (pose msg)) in
  mkQuaternion (o_x o) (o_y o) (o_z o) (o_w o).

(** Lines 209 to 214: [transform_utm2nav_]. *)
Definition make_utm2nav (msg : Odometry D) : Transform D :=
  let p := position (pose_pose (pose msg)) in
  let utm := LLtoUTM (p_y p) (p_x p) in
  let utmY := northing utm in
  let utmX := easting utm in
  mkTransform (setRotation ops (msg_quaternion msg)) (mkVector3 utmX utmY (p_z p)).

(** Lines 244 to 264: the message [nav_in_utm]. *)
Definition make_nav_in_utm (st : State D) (msg : Odometry D) : Odometry D :=
  let nav_in_utm := Odometry_default in
  let hdr := mkHeader (seq_no (header nav_in_utm)) (gps_update_time_ st)
               "utm"%string in
  let pp := toMsgPose ops (transform_utm2nav_ st) in
  let pp := zero_alt_pose st pp in
  let pp := mkPose (position pp) (orientation (pose_pose (pose msg))) in
  let cov := copy_covariance (transform_utm2nav_covariance_ st)
               (pose_covariance (pose nav_in_utm)) in
  mkOdometry hdr (child_frame_id nav_in_utm)
    (mkPoseWithCovariance pp cov)
    (mkTwistWithCovariance
       (mkTwist (linear (twist_twist (twist msg)))
                (angular (twist_twist (twist msg))))
       (twist_covariance (twist msg))).

(** Lines 270 to 279: the message [nav_in_odom]. *)
Definition make_nav_in_odom (st : State D) (nav_in_utm : Odometry D) :
    Odometry D :=
  let transform_odom2nav :=
    mult ops (transform_utm2odom_inverse_ st) (transform_utm2nav_ st) in
  let nav_in_odom := nav_in_utm in
  let hdr := mkHeader (seq_no (header nav_in_odom)) (gps_update_time_ st)
               (world_frame_id_ st) in
  let pp := zero_alt_pose st (toMsgPose ops transform_odom2nav) in
  mkOdometry hdr (child_frame_id nav_in_odom)
    (mkPoseWithCovariance pp (pose_covariance (pose nav_in_odom)))
    (twist nav_in_odom).

(** Lines 178 to 184: whether the warn-once line fires, and the events it
    makes. *)
Definition warns_empty_frame_id (st : State D) (msg : Odometry D) : bool :=
  if frame_id (header msg) is EmptyString
  then ~~ warned_empty_frame_id_ st else false.

Definition empty_frame_id_events (st : State D) (msg : Odometry D) :
    seq (Event D) :=
  if warns_empty_frame_id st msg then
    [:: RosWarn D ("Odometry message has empty frame_id. " ++
                   "Will assume navsat device is mounted at " ++
                   "robot's origin.")%string]
  else [::].

(** [GeonavTransform::navOdomCallback(msg)]. *)
Definition navOdomCallback (st : State D) (msg : Odometry D) :
    State D * seq (Event D) :=
  let ev0 := empty_frame_id_events st msg in
  let st := set_nav_frame_id st (frame_id (header msg))
              (warns_empty_frame_id st msg || warned_empty_frame_id_ st) in
  if ~~ good_gps msg then
    (st, ev0 ++ [:: RosWarn D "Bad GPS!  Won't transfrom"%string])
  else
    let t := make_utm2nav msg in
    let cov := populate_covariance (pose_covariance (pose msg)) in
    let cov := rotate_covariance (callback_rot st) cov in
    let st := set_nav_members st t (inverse ops t) cov in
    let nav_in_utm := make_nav_in_utm st msg in
    let nav_in_odom := make_nav_in_odom st nav_in_utm in
    (st, ev0 ++ [:: Publish utm_pub_ nav_in_utm; Publish odom_pub_ nav_in_odom]).

(** The samples a run of events published, in order, each with its
    publisher. *)
Definition published (evs : seq (Event D)) : seq (Publisher * Odometry D) :=
  pmap (fun e => if e is Publish p m then Some (p, m) else None) evs.

(** The WARN lines of a run of events. *)
Definition warnings (evs : seq (Event D)) : seq string :=
  pmap (fun e => if e is RosWarn s then Some s else None) evs.

(** [ros::spinOnce] over the queued samples: the callback on each in turn,
    the node's members threaded through. *)
Definition spin (st : State D) (msgs : seq (Odometry D)) :
    State D * seq (Event D) :=
  foldl (fun acc msg =>
           let: (st', ev) := navOdomCallback acc.1 msg in (st', acc.2 ++ ev))
        (st, [::]) msgs.

End Node.

(** ** 5. Start-up *)

Section Run.
Variable D : Type.
Variable ops : scalar_ops D.
Variable LLtoUTM : D -> D -> UTM D.

(** libm's [sin] and [cos] (through [tf2Sin], [tf2Cos]) and
    [GeonavUtilities::appendPrefix(prefix, frame_id)], as the value it
    leaves in [frame_id]. *)
Variables dsin dcos : D -> D.
Variable appendPrefix : string -> string -> string.

(** Lines 78 to 81: the three datum entries written to an
    [ostringstream], separated by blanks, and read back from an
    [istringstream] into [datum_lat], [datum_lon], [datum_yaw].  The
    numbers read back are those the text holds, not those written: the
    C++ streams are a parameter of the model. *)
Variable datum_text_round_trip : D -> D -> D -> D * D * D.

Local Notation "0" := (c0 ops) : double_scope.
Local Notation "x + y" := (dadd ops x y) : double_scope.
Local Notation "x - y" := (dsub ops x y) : double_scope.
Local Notation "x * y" := (dmul ops x y) : double_scope.
Local Notation "x < y" := (dlt ops x y) : double_scope.
Local Open Scope double_scope.

(** [tf2::Quaternion::setRPY(roll, pitch, yaw)]. *)
Definition setRPY (roll pitch yaw : D) : Quaternion D :=
  let halfYaw := yaw * c05 ops in
  let halfPitch := pitch * c05 ops in
  let halfRoll := roll * c05 ops in
  let cosYaw := dcos halfYaw in
  let sinYaw := dsin halfYaw in
  let cosPitch := dcos halfPitch in
  let sinPitch := dsin halfPitch in
  let cosRoll := dcos halfRoll in
  let sinRoll := dsin halfRoll in
  mkQuaternion
    (sinRoll * cosPitch * cosYaw - cosRoll * sinPitch * sinYaw)
    (cosRoll * sinPitch * cosYaw + sinRoll * cosPitch * sinYaw)
    (cosRoll * cosPitch * sinYaw - sinRoll * sinPitch * cosYaw)
    (cosRoll * cosPitch * cosYaw + sinRoll * sinPitch * sinYaw).

(** Lines 92 to 113: the yaw warning, the frame names and [setDatum], for
    the three numbers [run] holds after reading the parameter; [ev1] are
    the lines logged while reading it. *)
Definition run_set_datum (st : State D) (params : RunParams D) (now : Time)
    (datum : D * D * D) (ev1 : seq (Event D)) : State D * seq (Event D) :=
  let: (datum_lat, datum_lon, datum_yaw) := datum in
  let ev2 :=
    if c001 ops < dabs ops datum_yaw
    then [:: RosWarn D "Yaw of the datum is ignored!"%string]
    else [::] in
  let tf_prefix := param_tf_prefix params in
  let st := set_frame_ids st (appendPrefix tf_prefix (world_frame_id_ st))
              (appendPrefix tf_prefix (base_link_frame_id_ st)) in
  let quat := setRPY 0 0 datum_yaw in
  let: (st, ev3) := setDatum ops LLtoUTM st datum_lat datum_lon 0 quat now in
  (st, ev1 ++ ev2 ++ ev3).

(** [GeonavTransform::run] up to the subscription: the parameters, the
    datum.  With no [datum] parameter the node logs two errors and does
    not call [setDatum].  With one, the two [ROS_ASSERT]s of lines 67 and
    68 (as built by default, without [NDEBUG]) abort the process when the
    value is not an array or has fewer than three entries; an exception
    while reading is logged and replaced by the datum (0, 0, 0). *)
Definition run_setup (st : State D) (params : RunParams D) (now : Time) :
    State D * seq (Event D) :=
  let st := set_run_params st (param_broadcast_utm_transform params)
              (param_zero_altitude params) in
  match param_datum params with
  | None =>
      (st, [:: RosError D ("ERROR <datum> parameter is not supplied in " ++
                           "geonav_transform configuration")%string;
               RosError D "Setting to 0,0,0 which is non-ideal!"%string])
  | Some DatumNotArray =>
      (st, [:: RosAssertFailed D
                 "datum_config.getType() == XmlRpc::XmlRpcValue::TypeArray"%string])
  | Some (DatumValues n lat lon yaw) =>
      if (n < 3)%N then
        (st, [:: RosAssertFailed D "datum_config.size() >= 3"%string])
      else
        run_set_datum st params now (datum_text_round_trip lat lon yaw)
          (if (3 < n)%N then
             [:: RosWarn D
                   ("Deprecated datum parameter configuration detected. " ++
                    "Only the first three parameters " ++
                    "(latitude, longitude, yaw) will be used. frame_ids " ++
                    "will be derived from odometry and navsat inputs.")%string]
           else [::])
  | Some (DatumThrows message type) =>
      run_set_datum st params now (0, 0, 0)
        [:: RosError D ("ERROR datum config: " ++ message ++
                        " for geonav_transform (type: " ++ type ++ ")")%string;
            RosError D "Setting to 0,0,0 which is non-ideal!"%string]
  end.

(** Whether a failed [ROS_ASSERT] ended the process. *)
Definition aborted (evs : seq (Event D)) : bool :=
  has (fun e => if e is RosAssertFailed _ then true else false) evs.

(** The two ways a [datum] parameter is dealt with: it fails one of the
    assertions of lines 67 and 68, or line 113 is reached with it. *)
Definition datum_rejected (params : RunParams D) : bool :=
  match param_datum params with
  | Some DatumNotArray => true
  | Some (DatumValues n _ _ _) => (n < 3)%N
  | _ => false
  end.

Definition datum_reaches_setDatum (params : RunParams D) : bool :=
  match param_datum params with
  | Some (DatumValues n _ _ _) => (2 < n)%N
  | Some (DatumThrows _ _) => true
  | _ => false
  end.

(** [GeonavTransform::run]: the set-up, then, unless the process was
    aborted, the samples delivered to the callback by the spin loop. *)
Definition run (st : State D) (params : RunParams D) (now : Time)
    (msgs : seq (Odometry D)) : State D * seq (Event D) :=
  let: (st, ev) := run_setup st params now in
  if aborted ev then (st, ev) else
  let: (st', ev') := spin ops LLtoUTM st msgs in
  (st', ev ++ ev').

End Run.

(** ** 6. The two carriers *)

(** binary64, on Rocq's primitive floats. *)
Definition float_ops : scalar_ops float :=
  ScalarOps 0%float 1%float 2%float 0.5%float 0.01%float
    PrimFloat.add PrimFloat.sub PrimFloat.mul PrimFloat.div PrimFloat.opp
    PrimFloat.sqrt PrimFloat.abs PrimFloat.ltb PrimFloat.is_nan.

(** A field: the same arithmetic without rounding.  A field has no NaN;
    its order, square root and absolute value are given. *)
Definition exact_ops (F : fieldType) (lt : F -> F -> bool) (sq ab : F -> F) :
    scalar_ops F :=
  ScalarOps (0 : F)%R (1 : F)%R (2%:R : F)%R (2%:R^-1 : F)%R (100%:R^-1 : F)%R
    (fun x y => x + y)%R (fun x y => x - y)%R (fun x y => x * y)%R
    (fun x y => x / y)%R (fun x => - x)%R
    sq ab lt (fun _ => false).

(** The rationals, with their own order and absolute value. *)
Definition rat_ops (sq : rat -> rat) : scalar_ops rat :=
  exact_ops (fun x y => (x < y)%R) sq (fun x => `|x|%R).

(** The matrices of MathComp that a 6 by 6 [MatrixXd] and a [Matrix3x3]
    stand for. *)
Definition mx_of (F : fieldType) (m : MatrixXd F) : 'M[F]_6 :=
  \matrix_(i, j) nth 0%R (nth [::] m i) j.

Definition rot_of (F : fieldType) (r : Matrix3x3 F) : 'M[F]_3 :=
  \matrix_(i, j) vget (getRow r i) j.

(** ** 7. Scenarios *)

Section Scenarios.
Variable D : Type.
Variable ops : scalar_ops D.

(** [tf2::Transform::getIdentity()] and three unit quaternions: no
    rotation, half a turn about z (yaw pi) and half a turn about x
    (roll pi). *)
Definition Transform_identity : Transform D :=
  mkTransform
    (mkMatrix3x3 (mkVector3 (c1 ops) (c0 ops) (c0 ops))
                 (mkVector3 (c0 ops) (c1 ops) (c0 ops))
                 (mkVector3 (c0 ops) (c0 ops) (c1 ops)))
    (mkVector3 (c0 ops) (c0 ops) (c0 ops)).

Definition q_identity : Quaternion D :=
  mkQuaternion (c0 ops) (c0 ops) (c0 ops) (c1 ops).
Definition q_yaw_pi : Quaternion D :=
  mkQuaternion (c0 ops) (c0 ops) (c1 ops) (c0 ops).
Definition q_roll_pi : Quaternion D :=
  mkQuaternion (c1 ops) (c0 ops) (c0 ops) (c0 ops).

(** A node just constructed, whose uninitialised transforms happen to be
    the identity and whose [has_datum_] happens to be false. *)
Definition fresh_node : State D :=
  GeonavTransform_ctor ops false Transform_identity Transform_identity
    Transform_identity Transform_identity Transform_identity.

(** A node just constructed in zeroed memory: every uninitialised
    transform is all zeros. *)
Definition Transform_zero : Transform D :=
  mkTransform
    (mkMatrix3x3 (mkVector3 (c0 ops) (c0 ops) (c0 ops))
                 (mkVector3 (c0 ops) (c0 ops) (c0 ops))
                 (mkVector3 (c0 ops) (c0 ops) (c0 ops)))
    (mkVector3 (c0 ops) (c0 ops) (c0 ops)).

Definition zeroed_node : State D :=
  GeonavTransform_ctor ops false Transform_zero Transform_zero
    Transform_zero Transform_zero Transform_zero.

(** The same node with the parameter [zero_altitude] loaded as true. *)
Definition fresh_node_zero_altitude : State D :=
  set_run_params fresh_node false true.

(** The row-major array of the 6 by 6 identity: unit variances, no
    correlation. *)
Definition cov_identity : seq D :=
  flatten (setIdentity ops 6).

(** A sample stamped [t] in frame [gps], at longitude [x], latitude [y]
    and altitude [z], heading along [q], with covariance [cov] and a twist
    of zeros. *)
Definition sample (t : Time) (x y z : D) (q : Quaternion D) (cov : seq D) :
    Odometry D :=
  mkOdometry (mkHeader 1 t "gps"%string) "base_link"%string
    (mkPoseWithCovariance (mkPose (mkPoint x y z) (toMsgQ q)) cov)
    (mkTwistWithCovariance
       (mkTwist (mkVector3Msg (c0 ops) (c0 ops) (c0 ops))
                (mkVector3Msg (c0 ops) (c0 ops) (c0 ops)))
       (nseq 36 (c0 ops))).

(** A node with one member overwritten, to compare runs that differ in
    [has_datum_] only. *)
Definition set_has_datum (st : State D) (b : bool) : State D :=
  mkState (broadcast_utm_transform_ st) (nav_frame_id_ st) (zero_altitude_ st)
    (world_frame_id_ st) (base_link_frame_id_ st) (utm_zone_ st)
    b (gps_update_time_ st) (transform_utm2odom_ st)
    (transform_utm2odom_inverse_ st)
    (transform_utm2nav_ st) (transform_utm2nav_inverse_ st)
    (utm_world_trans_inverse_ st) (transform_utm2nav_covariance_ st)
    (warned_empty_frame_id_ st).

(** The datum as the registry holds it. *)
Definition datum_of (st : State D) :
    Transform D * Transform D * string * bool :=
  (transform_utm2odom_ st, transform_utm2odom_inverse_ st, utm_zone_ st,
   has_datum_ st).

End Scenarios.

(** The plate projection in degrees (northing = latitude, easting =
    longitude, no zone).  It is not UTM; it stands for [LLtoUTM] where a
    statement needs one closed input, and it tells its two arguments
    apart. *)
Definition LLtoUTM_plate (D : Type) : D -> D -> UTM D :=
  fun lat lon => mkUTM lat lon ""%string.

Arguments LLtoUTM_plate {D}.

(** The spec's scenario on binary64: the datum at 45 N, 93 W, and a sample
    there, 10 m up, heading along the identity quaternion, with unit
    variances, stamped at 100 s. *)
Definition lat45 : float := 45%float.
Definition lon93W : float := (-93)%float.
Definition alt10 : float := 10%float.
Definition t100 : Time := mkTime 100 0.
Definition t0 : Time := mkTime 0 0.

Definition sample45 : Odometry float :=
  sample float_ops t100 lon93W lat45 alt10 (q_identity float_ops)
    (cov_identity float_ops).




(** The same sample with an infinite longitude, and with a NaN altitude. *)
Definition sample_inf : Odometry float :=
  sample float_ops t100 PrimFloat.infinity lat45 alt10 (q_identity float_ops)
    (cov_identity float_ops).

Definition sample_nan : Odometry float :=
  sample float_ops t100 lon93W lat45 PrimFloat.nan (q_identity float_ops)
    (cov_identity float_ops).

(** The array the copy loop leaves for the 6 by 6 identity. *)
Definition cov_identity_copied : seq float :=
  [:: 1; 0; 0;  0; 1; 0;  0; 0; 1;  0; 0; 0;  0; 0; 0;  0; 0; 0;
      0; 0; 1;  0; 0; 0;  0; 0; 0;  0; 0; 0;  0; 0; 0;  0; 0; 0]%float.

(** The 6 by 6 operator of half a turn about z. *)
Definition rot_6d_yaw_pi : MatrixXd float :=
  [:: [:: -1; 0; 0; 0; 0; 0]; [:: 0; -1; 0; 0; 0; 0]; [:: 0; 0; 1; 0; 0; 0];
      [:: 0; 0; 0; -1; 0; 0]; [:: 0; 0; 0; 0; -1; 0]; [:: 0; 0; 0; 0; 0; 1]]%float.

(** The 6 by 6 operator the callback builds from an all-zero transform. *)
Definition rot_6d_zeroed : MatrixXd float :=
  [:: [:: 1; 0; 0; 0; 0; 0]; [:: 0; -1; 0; 0; 0; 0]; [:: 0; 0; -1; 0; 0; 0];
      [:: 0; 0; 0; 1; 0; 0]; [:: 0; 0; 0; 0; -1; 0]; [:: 0; 0; 0; 0; 0; -1]]%float.

(** A datum yaw of half a turn as the parameter holds it, and as lines 78
    to 81 read it back: [ostr << 3.141592653589793] writes, at the
    stream's default precision of 6 significant digits, the text
    3.14159, which [istr >>] reads; 45, -93 and 0 are written as 45,
    -93 and 0 and come back unchanged. *)
Definition pi : float := 3.141592653589793%float.
Definition yaw_read_back : float := 3.14159%float.

Definition round_trip_table (lat lon yaw : float) : float * float * float :=
  (lat, lon, if PrimFloat.eqb yaw pi then yaw_read_back else yaw).

(** The values of libm's [sin] and [cos] at the binary64 numbers [0] and
    [yaw_read_back * 0.5 = 1.570795], tabulated. *)
Definition sin_table (x : float) : float :=
  if PrimFloat.eqb x 0%float then 0%float else 0.9999999999991198%float.
Definition cos_table (x : float) : float :=
  if PrimFloat.eqb x 0%float then 1%float else 1.3267948966775328e-06%float.

(** The parameters [run] loads for a datum at the scenario point with a
    given yaw, and the basis [setDatum] stores for the yaw read back from
    [pi]. *)
Definition datum_params (yaw : float) : RunParams float :=
  mkRunParams false false (Some (DatumValues 3 lat45 lon93W yaw)) ""%string.

Definition basis_yaw_read_back : Matrix3x3 float :=
  (mkMatrix3x3
     (mkVector3 (-0.99999999999647926) (-2.65358979335273e-06) 0)
     (mkVector3 2.65358979335273e-06 (-0.99999999999647926) 0)
     (mkVector3 0 0 1))%float.

(** The same scenario over the rationals; the square root, which no
    statement on the position depends on, is left open. *)
Definition lat45q : rat := (45%:R)%R.
Definition lon93Wq : rat := (- 93%:R)%R.
Definition alt10q : rat := (10%:R)%R.

Definition sample45q (sq : rat -> rat) : Odometry rat :=
  sample (rat_ops sq) t100 lon93Wq lat45q alt10q (q_identity (rat_ops sq))
    (cov_identity (rat_ops sq)).

(** A quarter turn about z, and the covariance with variances 1 to 6 on
    the diagonal, read from its row-major array. *)
Definition rot_quarter_turn : Matrix3x3 rat :=
  (mkMatrix3x3 (mkVector3 0 (-1) 0) (mkVector3 1 0 0) (mkVector3 0 0 1))%R.

Definition cov_diagonal_array : seq rat :=
  flatten (mx_tab 6 (fun i j => if i == j then (i.+1%:R)%R else 0%R)).

Definition cov_diagonal : MatrixXd rat :=
  populate_covariance (rat_ops id) cov_diagonal_array.

(** A node whose member [utm_world_trans_inverse_] happens to hold the
    quarter turn, and the scenario sample with the diagonal covariance.
    With the identity for the square root, the quaternion the callback
    reads from that member is (0, 0, 1/2, 1), and the matrix it builds
    from it has the rows (3/5, -4/5, 0), (4/5, 3/5, 0), (0, 0, 1). *)
Definition turned_node : State rat :=
  GeonavTransform_ctor (rat_ops id) false
    (Transform_identity (rat_ops id)) (Transform_identity (rat_ops id))
    (Transform_identity (rat_ops id)) (Transform_identity (rat_ops id))
    (mkTransform rot_quarter_turn (mkVector3 0 0 0)%R).

Definition sample_diagonal : Odometry rat :=
  sample (rat_ops id) t100 lon93Wq lat45q alt10q (q_identity (rat_ops id))
    cov_diagonal_array.

(** ** 8. The claims as the spec states them *)

Section Claims.
Variable D : Type.
Variable ops : scalar_ops D.
Variable LLtoUTM : D -> D -> UTM D.


(** The world-frame pose is the pose of
    [compose(inverse(world to UTM), UTM to sensor)]. *)
Definition world_pose_claim (st : State D) (msg : Odometry D) : Prop :=
  forall u w,
    published (navOdomCallback ops LLtoUTM st msg).2
      = [:: (utm_pub_, u); (odom_pub_, w)] ->
    pose_pose (pose w)
      = toMsgPose ops (mult ops (inverse ops (transform_utm2odom_ st))
                                (make_utm2nav ops LLtoUTM msg)).

(** After [setDatum(lat0, lon0, 0, q0)], a sample at the datum's own
    latitude and longitude comes out at [(0, 0, altitude)]. *)
Definition at_datum_claim (st0 : State D) (lat0 lon0 : D) (q0 : Quaternion D)
    (now : Time) (msg : Odometry D) : Prop :=
  let st := (setDatum ops LLtoUTM st0 lat0 lon0 (c0 ops) q0 now).1 in
  p_y (position (pose_pose (pose msg))) = lat0 ->
  p_x (position (pose_pose (pose msg))) = lon0 ->
  forall u w,
    published (navOdomCallback ops LLtoUTM st msg).2
      = [:: (utm_pub_, u); (odom_pub_, w)] ->
    position (pose_pose (pose w))
      = mkPoint (c0 ops) (c0 ops) (p_z (position (pose_pose (pose msg)))).

(** Before [setDatum], a conversion emits nothing. *)
Definition datum_not_set_claim (st : State D) (msg : Odometry D) : Prop :=
  has_datum_ st = false ->
  published (navOdomCallback ops LLtoUTM st msg).2 = [::].

End Claims.

(** A sample whose position holds a NaN or an infinity is dropped. *)
Definition nonfinite (x : float) : bool :=
  PrimFloat.is_nan x || PrimFloat.is_infinity x.

Definition nonfinite_claim (LLtoUTM : float -> float -> UTM float)
    (st : State float) (msg : Odometry float) : Prop :=
  let p := position (pose_pose (pose msg)) in
  [|| nonfinite (p_x p), nonfinite (p_y p) | nonfinite (p_z p)] ->
  published (navOdomCallback float_ops LLtoUTM st msg).2 = [::].

(** ** 8b. What the node reads and what it shows *)

Section Observations.
Variable D : Type.

(** The members the callback reads besides the sample: the stored time,
    the altitude flag, the world frame name, the inverse datum transform
    and the transform its covariance rotation is read from. *)
Definition read_members (st : State D) :
    Time * bool * string * Transform D * Transform D :=
  (gps_update_time_ st, zero_altitude_ st, world_frame_id_ st,
   transform_utm2odom_inverse_ st, utm_world_trans_inverse_ st).

(** The 36-element array that lines 253 to 260 leave in a fresh message
    for a matrix [m]: columns 0 to 2 of rows 0 to 5, then columns 3 to 5
    of row 5, then fifteen zeros. *)
Definition covariance_layout (ops : scalar_ops D) (m : MatrixXd D) : seq D :=
  let e := mx_get ops m in
  [:: e 0 0; e 0 1; e 0 2;  e 1 0; e 1 1; e 1 2;
      e 2 0; e 2 1; e 2 2;  e 3 0; e 3 1; e 3 2;
      e 4 0; e 4 1; e 4 2;  e 5 0; e 5 1; e 5 2;
      e 5 3; e 5 4; e 5 5] ++ nseq 15 (c0 ops).

(** The transforms a run of events broadcast. *)
Definition broadcasts (evs : seq (Event D)) : seq (TransformStamped D) :=
  pmap (fun e => if e is SendTransform t then Some t else None) evs.

(** A covariance array that is symmetric as a row-major 6 by 6 matrix. *)
Definition symmetric_array (ops : scalar_ops D) (cov : seq D) : Prop :=
  forall i j, i < 6 -> j < 6 ->
    nth (c0 ops) cov (i * 6 + j) = nth (c0 ops) cov (j * 6 + i).

End Observations.

(** The text of the warn-once line of lines 181 to 183. *)
Definition empty_frame_id_text : string :=
  ("Odometry message has empty frame_id. " ++
   "Will assume navsat device is mounted at " ++
   "robot's origin.")%string.

(** ** 9. The callback, case by case *)

Section NodeFacts.
Variable D : Type.
Variable ops : scalar_ops D.
Variable LLtoUTM : D -> D -> UTM D.

Local Notation callback := (navOdomCallback ops LLtoUTM).

(** The warn-once line publishes nothing. *)
Lemma published_warn_prefix (st : State D) (msg : Odometry D)
    (evs : seq (Event D)) :
  published (empty_frame_id_events st msg ++ evs) = published evs.
Proof. by rewrite /empty_frame_id_events; case: (warns_empty_frame_id _ _). Qed.

(** A sample with a NaN coordinate: the WARN line after the possible
    warn-once line, and only [nav_frame_id_] and the warn-once flag
    written. *)
Lemma callback_bad (st : State D) (msg : Odometry D) :
  good_gps ops msg = false ->
  callback st msg
    = (set_nav_frame_id st (frame_id (header msg))
         (warns_empty_frame_id st msg || warned_empty_frame_id_ st),
       empty_frame_id_events st msg
         ++ [:: RosWarn D "Bad GPS!  Won't transfrom"%string]).
Proof. by rewrite /navOdomCallback => ->. Qed.

(** A sample without NaN: the two samples published, built from the
    members as the callback leaves them. *)
Lemma published_good (st : State D) (msg : Odometry D) :
  good_gps ops msg ->
  let st' := (callback st msg).1 in
  published (callback st msg).2
    = [:: (utm_pub_, make_nav_in_utm ops st' msg);
          (odom_pub_, make_nav_in_odom ops st' (make_nav_in_utm ops st' msg))].
Proof.
by move=> good; rewrite /navOdomCallback good /= published_warn_prefix.
Qed.

(** What the callback leaves in the members, on a sample without NaN. *)
Lemma callback_good_state (st : State D) (msg : Odometry D) :
  good_gps ops msg ->
  let st' := (callback st msg).1 in
  [/\ transform_utm2nav_ st' = make_utm2nav ops LLtoUTM msg,
      transform_utm2nav_covariance_ st'
        = rotate_covariance ops (callback_rot ops st)
            (populate_covariance ops (pose_covariance (pose msg))),
      datum_of st' = datum_of st
    & [/\ gps_update_time_ st' = gps_update_time_ st,
          zero_altitude_ st' = zero_altitude_ st,
          world_frame_id_ st' = world_frame_id_ st
        & utm_world_trans_inverse_ st' = utm_world_trans_inverse_ st]].
Proof. by move=> good; rewrite /navOdomCallback good. Qed.

(** The callback never writes the datum, the stored time or the transform
    its covariance rotation reads, whatever the sample. *)
Lemma callback_frame (st : State D) (msg : Odometry D) :
  let st' := (callback st msg).1 in
  [/\ datum_of st' = datum_of st,
      gps_update_time_ st' = gps_update_time_ st,
      zero_altitude_ st' = zero_altitude_ st
    & utm_world_trans_inverse_ st' = utm_world_trans_inverse_ st].
Proof. by rewrite /navOdomCallback; case: (good_gps ops msg). Qed.

(** [setDatum] writes the zone, the two datum transforms and [has_datum_],
    and nothing else. *)
Lemma setDatum_frame (st : State D) (lat lon alt : D) (q : Quaternion D)
    (now : Time) :
  let st' := (setDatum ops LLtoUTM st lat lon alt q now).1 in
  [/\ utm_world_trans_inverse_ st' = utm_world_trans_inverse_ st,
      gps_update_time_ st' = gps_update_time_ st,
      zero_altitude_ st' = zero_altitude_ st
    & transform_utm2odom_inverse_ st' = inverse ops (transform_utm2odom_ st')].
Proof. by []. Qed.

(** The array the copy loop leaves in a default-constructed message: rows
    of three, so that each pass over a row overwrites the second half of
    the row before; entries 21 to 35 keep their zeros. *)
Lemma copy_covariance_layout (m : MatrixXd D) :
  let e := mx_get ops m in
  copy_covariance ops m (nseq 36 (c0 ops))
    = [:: e 0 0; e 0 1; e 0 2;  e 1 0; e 1 1; e 1 2;
          e 2 0; e 2 1; e 2 2;  e 3 0; e 3 1; e 3 2;
          e 4 0; e 4 1; e 4 2;  e 5 0; e 5 1; e 5 2;
          e 5 3; e 5 4; e 5 5] ++ nseq 15 (c0 ops).
Proof. by []. Qed.

(** The operator [rot_6d]: the rotation on both diagonal blocks, zeros
    off them. *)
Lemma make_rot_6d_layout (rot : Matrix3x3 D) :
  let r := m_el rot in
  let z := c0 ops in
  make_rot_6d ops rot
    = [:: [:: r 0 0; r 0 1; r 0 2; z; z; z];
          [:: r 1 0; r 1 1; r 1 2; z; z; z];
          [:: r 2 0; r 2 1; r 2 2; z; z; z];
          [:: z; z; z; r 0 0; r 0 1; r 0 2];
          [:: z; z; z; r 1 0; r 1 1; r 1 2];
          [:: z; z; z; r 2 0; r 2 1; r 2 2]].
Proof. by []. Qed.

(** The matrix read from the sample's array, row-major with rows of six. *)
Lemma populate_covariance_layout (cov : seq D) :
  populate_covariance ops cov
    = mx_tab 6 (fun i j => nth (c0 ops) cov (i * 6 + j)).
Proof. by []. Qed.

End NodeFacts.

(** ** 10. The spin loop *)

Section SpinFacts.
Variable D : Type.
Variable ops : scalar_ops D.
Variable LLtoUTM : D -> D -> UTM D.

Local Notation callback := (navOdomCallback ops LLtoUTM).

(** The loop started with events already logged. *)
Lemma spin_acc (msgs : seq (Odometry D)) (st : State D) (evs : seq (Event D)) :
  foldl (fun acc msg =>
           let: (st', ev) := callback acc.1 msg in (st', acc.2 ++ ev))
        (st, evs) msgs
  = ((spin ops LLtoUTM st msgs).1, evs ++ (spin ops LLtoUTM st msgs).2).
Proof.
rewrite /spin; elim: msgs st evs => [|msg msgs IH] st evs /=.
  by rewrite cats0.
case: (callback st msg) => st' ev /=.
by rewrite (IH st' (evs ++ ev)) (IH st' ev) catA.
Qed.

(** One sample, then the rest of the queue from the members it left. *)
Lemma spin_cons (st : State D) (msg : Odometry D) (msgs : seq (Odometry D)) :
  spin ops LLtoUTM st (msg :: msgs)
  = ((spin ops LLtoUTM (callback st msg).1 msgs).1,
     (callback st msg).2 ++ (spin ops LLtoUTM (callback st msg).1 msgs).2).
Proof.
rewrite {1}/spin /=; case: (callback st msg) => st' ev /=.
exact: spin_acc.
Qed.

Lemma published_cat (e1 e2 : seq (Event D)) :
  published (e1 ++ e2) = published e1 ++ published e2.
Proof. exact: pmap_cat. Qed.

(** Every published sample is stamped with the member [gps_update_time_],
    which neither the callback nor [setDatum] writes. *)
Lemma published_stamps (st : State D) (msg : Odometry D) :
  [seq stamp (header pm.2) | pm <- published (callback st msg).2]
    = if good_gps ops msg
      then [:: gps_update_time_ st; gps_update_time_ st] else [::].
Proof.
case good: (good_gps ops msg).
  rewrite published_good //=.
  by have [_ -> _ _] := callback_frame ops LLtoUTM st msg.
rewrite (callback_bad LLtoUTM st good) /empty_frame_id_events.
by case: (warns_empty_frame_id _ _).
Qed.

(** The rotation the callback builds is the same after any sample and
    after [setDatum]: it is read from a member that neither writes. *)
Lemma callback_rot_fixed (st : State D) (msg : Odometry D) (lat lon alt : D)
    (q : Quaternion D) (now : Time) :
  callback_rot ops (callback st msg).1 = callback_rot ops st
  /\ callback_rot ops (setDatum ops LLtoUTM st lat lon alt q now).1
     = callback_rot ops st.
Proof.
rewrite /callback_rot.
by have [_ _ _ ->] := callback_frame ops LLtoUTM st msg.
Qed.

End SpinFacts.

(** ** 11. The pipeline on every carrier *)


(** C10: the callback hands [position.y] to [LLtoUTM] as the latitude and
    [position.x] as the longitude; the UTM-frame sample's x is the easting
    and its y the northing of that projection, and its z the altitude
    (zero when [zero_altitude_] is set). *)
Theorem C10_latitude_is_y (D : Type) (ops : scalar_ops D)
    (LLtoUTM : D -> D -> UTM D) (st : State D) (msg : Odometry D) :
  good_gps ops msg ->
  let p := position (pose_pose (pose msg)) in
  let utm := LLtoUTM (p_y p) (p_x p) in
  exists u w,
    published (navOdomCallback ops LLtoUTM st msg).2
      = [:: (utm_pub_, u); (odom_pub_, w)]
    /\ position (pose_pose (pose u))
       = mkPoint (easting utm) (northing utm)
           (if zero_altitude_ st then c0 ops else p_z p).
Proof.
move=> good p utm; rewrite published_good //.
do 2!eexists; split; first by [].
by rewrite /navOdomCallback good.
Qed.

Lemma C10_latitude_is_y_witness :
  good_gps float_ops sample45 /\
  exists u w,
    published (navOdomCallback float_ops LLtoUTM_plate (fresh_node float_ops)
                 sample45).2
      = [:: (utm_pub_, u); (odom_pub_, w)]
    /\ position (pose_pose (pose u)) = mkPoint lon93W lat45 alt10.
Proof.
split; first by vm_compute.
exact: (@C10_latitude_is_y _ float_ops LLtoUTM_plate (fresh_node float_ops)
          sample45 (erefl true)).
Defined.




(** C6, as stated, fails: a sample whose longitude is infinite passes the
    callback's test, which looks for NaN only, and is published. *)
Lemma C6_counterexample :
  ~ exists LLtoUTM, nonfinite_claim LLtoUTM (fresh_node float_ops) sample_inf.
Proof.
case=> LL /(_ (erefl true)).
by rewrite (published_good LL _ (erefl : good_gps float_ops sample_inf)).
Qed.

(** C6 (amended): a sample with a NaN in x, y or z of its position is
    dropped: nothing is published for it, the last WARN line is the
    bad-GPS one, the datum is as it was, and the loop goes on: the queue
    behind it publishes what it would publish from the members the
    dropped sample left, two samples for each one without NaN. *)
Theorem C6_nan_sample_dropped (D : Type) (ops : scalar_ops D)
    (LLtoUTM : D -> D -> UTM D) (st : State D) (msg : Odometry D)
    (msgs : seq (Odometry D)) :
  let p := position (pose_pose (pose msg)) in
  [|| disnan ops (p_x p), disnan ops (p_y p) | disnan ops (p_z p)] ->
  let r := navOdomCallback ops LLtoUTM st msg in
  [/\ published r.2 = [::],
      last ""%string (warnings r.2) = "Bad GPS!  Won't transfrom"%string,
      datum_of r.1 = datum_of st,
      published (spin ops LLtoUTM st (msg :: msgs)).2
        = published (spin ops LLtoUTM r.1 msgs).2
    & forall msg', good_gps ops msg' ->
        size (published (navOdomCallback ops LLtoUTM r.1 msg').2) = 2].
Proof.
move=> p nan r.
have bad: good_gps ops msg = false.
  by rewrite /good_gps -/p; case/or3P: nan => ->; rewrite ?andbF.
have e := callback_bad LLtoUTM st bad.
have pub0: published r.2 = [::] by rewrite /r e published_warn_prefix.
split=> //.
- by rewrite /r e /empty_frame_id_events; case: (warns_empty_frame_id _ _).
- by rewrite /r e.
- by rewrite spin_cons published_cat -/r pub0.
- by move=> msg' good; rewrite published_good.
Qed.

Lemma C6_nan_sample_dropped_witness :
  let p := position (pose_pose (pose sample_nan)) in
  [|| PrimFloat.is_nan (p_x p), PrimFloat.is_nan (p_y p)
    | PrimFloat.is_nan (p_z p)] /\
  published (spin float_ops LLtoUTM_plate (fresh_node float_ops)
               [:: sample_nan; sample45]).2
  = published (navOdomCallback float_ops LLtoUTM_plate
                 (navOdomCallback float_ops LLtoUTM_plate
                    (fresh_node float_ops) sample_nan).1 sample45).2.
Proof.
split; first by [].
have [_ _ _ -> _] :=
  @C6_nan_sample_dropped _ float_ops LLtoUTM_plate (fresh_node float_ops)
    sample_nan [:: sample45] (erefl true).
by rewrite spin_cons published_cat.
Defined.

(** C7, as stated, fails: a node on which [setDatum] never ran
    ([has_datum_] false) publishes both samples for a good input. *)
Lemma C7_counterexample :
  ~ exists LLtoUTM,
      datum_not_set_claim float_ops LLtoUTM (fresh_node float_ops) sample45.
Proof.
case=> LL /(_ (erefl false)).
by rewrite (published_good LL _ (erefl : good_gps float_ops sample45)).
Qed.

(** C7 (amended): the callback never reads [has_datum_]: a sample without
    NaN yields both samples whatever the flag, the events are the same for
    either value of it, and this is so when [run] finds no [datum]
    parameter and therefore never calls [setDatum]. *)
Theorem C7_no_datum_check (D : Type) (ops : scalar_ops D)
    (LLtoUTM : D -> D -> UTM D) (st : State D) (msg : Odometry D) :
  good_gps ops msg ->
  [/\ size (published (navOdomCallback ops LLtoUTM st msg).2) = 2,
      forall b,
        (navOdomCallback ops LLtoUTM (set_has_datum st b) msg).2
          = (navOdomCallback ops LLtoUTM st msg).2
    & forall dsin dcos appendPrefix datum_text_round_trip params now,
        param_datum params = None ->
        let r := run ops LLtoUTM dsin dcos appendPrefix datum_text_round_trip
                   st params now [:: msg] in
        has_datum_ r.1 = has_datum_ st /\ size (published r.2) = 2].
Proof.
move=> good; split; first by rewrite published_good.
  by move=> b; rewrite /navOdomCallback good.
move=> dsin dcos ap rt params now nodatum r.
rewrite /r /run /run_setup nodatum [aborted _]/= spin_cons.
set st1 := set_run_params _ _ _.
rewrite [X in _ /\ X]/= !published_cat (published_good LLtoUTM st1 good) /=.
by have [[= _ _ _ ->] _ _ _] := callback_frame ops LLtoUTM st1 msg.
Qed.

Lemma C7_no_datum_check_witness :
  good_gps float_ops sample45 /\
  has_datum_ (fresh_node float_ops) = false /\
  size (published (navOdomCallback float_ops LLtoUTM_plate
                     (fresh_node float_ops) sample45).2) = 2.
Proof.
split; first by [].
split; first by [].
by have [] := @C7_no_datum_check _ float_ops LLtoUTM_plate
                (fresh_node float_ops) sample45 (erefl true).
Defined.

(** ** 12. The node evaluated on binary64 *)

(** C1: the operator the callback builds is read from the member
    [utm_world_trans_inverse_] (line 228), which [setDatum] does not
    write, and not from the inverse datum rotation that [setDatum] stores.
    With the datum turned half a turn about z the stored inverse rotation
    gives [rot_6d_yaw_pi], and the callback builds the identity it had
    before [setDatum]; with an unrotated datum on a node constructed in
    zeroed memory the stored inverse rotation gives the identity, and the
    callback builds [rot_6d_zeroed]. *)
Theorem C1_rot_6d_ignores_datum (LLtoUTM : float -> float -> UTM float) :
  let datum_rot_6d st :=
    make_rot_6d float_ops
      (setRotation float_ops
         (Transform_getRotation float_ops (transform_utm2odom_inverse_ st))) in
  let st1 := (setDatum float_ops LLtoUTM (fresh_node float_ops)
                lat45 lon93W 0%float (q_yaw_pi float_ops) t0).1 in
  let st2 := (setDatum float_ops LLtoUTM (zeroed_node float_ops)
                lat45 lon93W 0%float (q_identity float_ops) t0).1 in
  [/\ datum_rot_6d st1 = rot_6d_yaw_pi
      /\ make_rot_6d float_ops (callback_rot float_ops st1)
         = setIdentity float_ops 6,
      datum_rot_6d st2 = setIdentity float_ops 6
      /\ make_rot_6d float_ops (callback_rot float_ops st2) = rot_6d_zeroed
    & callback_rot float_ops st1 = callback_rot float_ops (fresh_node float_ops)
      /\ callback_rot float_ops st2
         = callback_rot float_ops (zeroed_node float_ops)].
Proof. by do !split; vm_compute. Qed.

(** C2: for the identity covariance and the identity rotation the rotated
    matrix is the identity, and the array published is
    [cov_identity_copied]: its entry [6*1 + 1] is 0 where the matrix has
    1 at row 1, column 1, because line 257 indexes with [POSITION_SIZE]. *)
Theorem C2_covariance_copied_in_rows_of_three
    (LLtoUTM : float -> float -> UTM float) :
  let r := navOdomCallback float_ops LLtoUTM (fresh_node float_ops) sample45 in
  [/\ transform_utm2nav_covariance_ r.1 = setIdentity float_ops 6,
      [seq pose_covariance (pose pm.2) | pm <- published r.2]
        = [:: cov_identity_copied; cov_identity_copied],
      nth 0%float cov_identity_copied (6 * 1 + 1) = 0%float
    & mx_get float_ops (setIdentity float_ops 6) 1 1 = 1%float].
Proof. by split; vm_compute. Qed.

(** C8: a sample stamped at 100 s comes out, in both frames, stamped at
    0 s: lines 246 and 276 copy the member [gps_update_time_], which the
    constructor zeroes and nothing in the node writes. *)
Theorem C8_outputs_stamped_with_stored_time
    (LLtoUTM : float -> float -> UTM float) :
  let r := navOdomCallback float_ops LLtoUTM (fresh_node float_ops) sample45 in
  [/\ stamp (header sample45) = mkTime 100 0,
      [seq stamp (header pm.2) | pm <- published r.2]
        = [:: mkTime 0 0; mkTime 0 0]
    & gps_update_time_ r.1 = mkTime 0 0].
Proof. by split; vm_compute. Qed.

Section TrigAtTwoPoints.
Variables fsin fcos : float -> float.
Hypothesis sin_0 : fsin 0%float = 0%float.
Hypothesis cos_0 : fcos 0%float = 1%float.
Hypothesis sin_half_yaw :
  fsin (yaw_read_back * 0.5)%float = 0.9999999999991198%float.
Hypothesis cos_half_yaw :
  fcos (yaw_read_back * 0.5)%float = 1.3267948966775328e-06%float.

(** The quaternions [run] builds for yaw 0 and for the yaw read back from
    [pi]. *)
Lemma setRPY_yaw_0 :
  setRPY float_ops fsin fcos 0%float 0%float 0%float = q_identity float_ops.
Proof. by rewrite /setRPY /= sin_0 cos_0; vm_compute. Qed.

Lemma setRPY_yaw_read_back :
  setRPY float_ops fsin fcos 0%float 0%float yaw_read_back
    = mkQuaternion 0%float 0%float 0.9999999999991198%float
        1.3267948966775328e-06%float.
Proof.
rewrite /setRPY /= sin_0 cos_0 [fsin _]sin_half_yaw [fcos _]cos_half_yaw.
by vm_compute.
Qed.

End TrigAtTwoPoints.

(** C3: two datum configurations that differ in yaw only (0 and
    3.141592653589793) leave different transforms in
    [transform_utm2odom_] and give different world-frame poses for the
    same sample, although [run] warns that the yaw is ignored: line 111
    turns the yaw it read back from the text of lines 78 to 81 (3.14159
    for the second configuration) into the quaternion that line 150
    stores.  The streams enter through what they return for the two
    configurations, [sin] and [cos] through their values at 0 and at
    half of 3.14159. *)
Theorem C3_datum_yaw_is_used (LLtoUTM : float -> float -> UTM float)
    (appendPrefix : string -> string -> string) (fsin fcos : float -> float)
    (datum_text_round_trip : float -> float -> float -> float * float * float) :
  datum_text_round_trip lat45 lon93W 0%float = (lat45, lon93W, 0%float) ->
  datum_text_round_trip lat45 lon93W pi = (lat45, lon93W, yaw_read_back) ->
  fsin 0%float = 0%float -> fcos 0%float = 1%float ->
  fsin (yaw_read_back * 0.5)%float = 0.9999999999991198%float ->
  fcos (yaw_read_back * 0.5)%float = 1.3267948966775328e-06%float ->
  let boot yaw :=
    run_setup float_ops LLtoUTM fsin fcos appendPrefix datum_text_round_trip
      (fresh_node float_ops) (datum_params yaw) t0 in
  let world yaw :=
    [seq orientation (pose_pose (pose pm.2))
    | pm <- published
              (navOdomCallback float_ops LLtoUTM (boot yaw).1 sample45).2] in
  [/\ warnings (boot pi).2 = [:: "Yaw of the datum is ignored!"%string],
      m_basis (transform_utm2odom_ (boot 0%float).1)
        = m_basis (Transform_identity float_ops),
      m_basis (transform_utm2odom_ (boot pi).1) = basis_yaw_read_back,
      world 0%float
        = [:: mkQuaternionMsg 0 0 0 1; mkQuaternionMsg 0 0 0 1]%float
    & world pi
        = [:: mkQuaternionMsg 0 0 0 1;
              mkQuaternionMsg 0 0 0.9999999999991198
                (-1.3267948966775328e-06)]%float].
Proof.
move=> rt0 rt1 s0 c0 s1 c1 boot world.
have b0: boot 0%float
  = run_setup float_ops LLtoUTM sin_table cos_table appendPrefix
      round_trip_table (fresh_node float_ops) (datum_params 0%float) t0.
  by rewrite /boot /run_setup /= rt0 /run_set_datum /= setRPY_yaw_0.
have b1: boot pi
  = run_setup float_ops LLtoUTM sin_table cos_table appendPrefix
      round_trip_table (fresh_node float_ops) (datum_params pi) t0.
  by rewrite /boot /run_setup /= rt1 /run_set_datum /= setRPY_yaw_read_back.
by rewrite /world b0 b1; split; vm_compute.
Qed.

Lemma C3_datum_yaw_is_used_witness :
  [/\ round_trip_table lat45 lon93W 0%float = (lat45, lon93W, 0%float),
      round_trip_table lat45 lon93W pi = (lat45, lon93W, yaw_read_back),
      sin_table 0%float = 0%float /\ cos_table 0%float = 1%float,
      sin_table (yaw_read_back * 0.5)%float = 0.9999999999991198%float
    & cos_table (yaw_read_back * 0.5)%float = 1.3267948966775328e-06%float] /\
  let boot yaw :=
    run_setup float_ops LLtoUTM_plate sin_table cos_table (fun p f => f)
      round_trip_table (fresh_node float_ops) (datum_params yaw) t0 in
  m_basis (transform_utm2odom_ (boot 0%float).1)
    = m_basis (Transform_identity float_ops)
  /\ m_basis (transform_utm2odom_ (boot pi).1) = basis_yaw_read_back.
Proof.
split; first by split; vm_compute.
have [] := @C3_datum_yaw_is_used LLtoUTM_plate (fun p f => f)
             sin_table cos_table round_trip_table
             (erefl _) (erefl _) (erefl _) (erefl _) (erefl _) (erefl _).
by move=> _ h0 h1 _ _; split.
Defined.

(** The UTM-frame x of the scenario sample is its longitude under the
    plate projection, not its latitude: the arguments are not swapped. *)
Lemma utm_x_is_not_projected_latitude :
  [seq p_x (position (pose_pose (pose pm.2)))
  | pm <- published (navOdomCallback float_ops LLtoUTM_plate
                       (fresh_node float_ops) sample45).2]
    = [:: lon93W; lon93W]
  /\ easting (LLtoUTM_plate (p_x (position (pose_pose (pose sample45))))
                            (p_y (position (pose_pose (pose sample45)))))
     = lat45.
Proof. by split; vm_compute. Qed.

(** ** 13. The arithmetic without rounding *)

Import GRing.Theory Num.Theory.

Section Exact.
Variable F : fieldType.
Variables (lt : F -> F -> bool) (sq ab : F -> F).

Local Open Scope ring_scope.
Local Notation ops := (exact_ops lt sq ab).

(** From Eigen's operations on [MatrixXd] to MathComp's on ['M_6]. *)
Lemma mx_of_tab (f : nat -> nat -> F) :
  mx_of (mx_tab 6 f) = \matrix_(i, j) f i j.
Proof.
by apply/matrixP => i j; rewrite !mxE /mx_tab nth_mkseq // nth_mkseq.
Qed.

Lemma dsum_iota6 (g : nat -> F) :
  dsum ops [seq g k | k <- iota 0 6] = \sum_(k < 6) g k.
Proof. by rewrite !big_ord_recl big_ord0 /= addr0 !addrA. Qed.

Lemma mx_of_mul (a b : MatrixXd F) :
  mx_of (mx_mul ops 6 a b) = mx_of a *m mx_of b.
Proof.
rewrite /mx_mul mx_of_tab; apply/matrixP => i j; rewrite !mxE.
rewrite (dsum_iota6 (fun k => mx_get ops a i k * mx_get ops b k j)).
by apply: eq_bigr => k _; rewrite !mxE.
Qed.

Lemma mx_of_transpose (a : MatrixXd F) :
  mx_of (mx_transpose ops 6 a) = (mx_of a)^T.
Proof.
by rewrite /mx_transpose mx_of_tab; apply/matrixP => i j; rewrite !mxE.
Qed.

(** [rot_6d] is the block-diagonal matrix of two copies of [rot]. *)
Lemma mx_of_rot_6d (rot : Matrix3x3 F) :
  mx_of (make_rot_6d ops rot) = block_mx (rot_of rot) 0 0 (rot_of rot).
Proof.
rewrite make_rot_6d_layout; apply/matrixP => i j.
case: (@split_ordP 3 3 i) => i' ->; case: (@split_ordP 3 3 j) => j' ->.
- rewrite [RHS]block_mxEul !mxE.
  by case: i' => [[|[|[|?]]] ?] //; case: j' => [[|[|[|?]]] ?].
- rewrite [RHS]block_mxEur !mxE.
  by case: i' => [[|[|[|?]]] ?] //; case: j' => [[|[|[|?]]] ?].
- rewrite [RHS]block_mxEdl !mxE.
  by case: i' => [[|[|[|?]]] ?] //; case: j' => [[|[|[|?]]] ?].
- rewrite [RHS]block_mxEdr !mxE.
  by case: i' => [[|[|[|?]]] ?] //; case: j' => [[|[|[|?]]] ?].
Qed.

Lemma block_diag_orthonormal (n : nat) (R : 'M[F]_n) :
  R *m R^T = 1%:M ->
  block_mx R 0 0 R *m (block_mx R 0 0 R)^T = 1%:M.
Proof.
move=> h; rewrite tr_block_mx mulmx_block !trmx0.
by rewrite !mulmx0 !mul0mx !addr0 !add0r h -scalar_mx_block.
Qed.

Lemma rot_6d_orthonormal (rot : Matrix3x3 F) :
  rot_of rot *m (rot_of rot)^T = 1%:M ->
  mx_of (make_rot_6d ops rot) *m (mx_of (make_rot_6d ops rot))^T = 1%:M.
Proof.
move=> h; rewrite mx_of_rot_6d.
exact: (@block_diag_orthonormal 3 (rot_of rot) h).
Qed.

(** Conjugation by a matrix with [P *m P^T = 1] keeps the characteristic
    polynomial. *)
Lemma char_poly_orthonormal_conj (n : nat) (P A : 'M[F]_n) :
  P *m P^T = 1%:M -> char_poly (P *m A *m P^T) = char_poly A.
Proof.
move=> PPt; rewrite /char_poly /char_poly_mx.
pose Pc := map_mx polyC P.
have PcPct : Pc *m Pc^T = 1%:M by rewrite /Pc map_trmx -map_mxM PPt map_mx1.
have -> : 'X%:M - map_mx polyC (P *m A *m P^T)
          = Pc *m ('X%:M - map_mx polyC A) *m Pc^T.
  rewrite !map_mxM -map_trmx -/Pc mulmxBr mulmxBl; congr (_ - _).
  by rewrite scalar_mxC -mulmxA PcPct mulmx1.
by rewrite !det_mulmx mulrAC -det_mulmx PcPct det1 mul1r.
Qed.

(** The world-frame position of a sample at the datum, when the datum
    quaternion has no x and no y component. *)
Lemma world_position_at_datum (LLtoUTM : F -> F -> UTM F) (st0 : State F)
    (lat0 lon0 : F) (q0 : Quaternion F) (now : Time) (msg : Odometry F) :
  let st := (setDatum ops LLtoUTM st0 lat0 lon0 0 q0 now).1 in
  q_x q0 = 0 -> q_y q0 = 0 -> zero_altitude_ st0 = false ->
  p_y (position (pose_pose (pose msg))) = lat0 ->
  p_x (position (pose_pose (pose msg))) = lon0 ->
  exists u w,
    published (navOdomCallback ops LLtoUTM st msg).2
      = [:: (utm_pub_, u); (odom_pub_, w)]
    /\ position (pose_pose (pose w))
       = mkPoint 0 0 (p_z (position (pose_pose (pose msg)))).
Proof.
move=> st qx0 qy0 za lat lon.
have good: good_gps ops msg by [].
rewrite published_good //; do 2!eexists; split; first by [].
rewrite /navOdomCallback good /= /zero_alt_point /= za lat lon qx0 qy0.
set s := _ / _.
by congr mkPoint; ring.
Qed.

End Exact.

(** The world-frame pose is the composed pose, up to the altitude flag. *)
Lemma world_pose_composed (D : Type) (ops : scalar_ops D)
    (LLtoUTM : D -> D -> UTM D) (st : State D) (msg : Odometry D) :
  transform_utm2odom_inverse_ st = inverse ops (transform_utm2odom_ st) ->
  good_gps ops msg ->
  exists u w,
    published (navOdomCallback ops LLtoUTM st msg).2
      = [:: (utm_pub_, u); (odom_pub_, w)]
    /\ pose_pose (pose w)
       = zero_alt_pose ops st
           (toMsgPose ops (mult ops (inverse ops (transform_utm2odom_ st))
                                    (make_utm2nav ops LLtoUTM msg))).
Proof.
move=> inv good; rewrite published_good //; do 2!eexists; split; first by [].
by rewrite /navOdomCallback good /= inv.
Qed.

Section ExactClaims.
Local Open Scope ring_scope.

(** C9: the covariance rotation is [R6 * cov * R6^T] with [R6] the
    block-diagonal matrix of two copies of the 3 by 3 rotation; for an
    orthonormal rotation and a symmetric covariance the result is
    symmetric and has the characteristic polynomial of the input, hence
    the same eigenvalues with the same multiplicities.  The arithmetic is
    that of a field: rounding is outside this statement. *)
Theorem C9_rotation_keeps_symmetry_and_spectrum (F : fieldType)
    (lt : F -> F -> bool) (sq ab : F -> F)
    (rot : Matrix3x3 F) (cov : MatrixXd F) :
  let ops := exact_ops lt sq ab in
  let R6 := mx_of (make_rot_6d ops rot) in
  let cov' := rotate_covariance ops rot cov in
  rot_of rot *m (rot_of rot)^T = 1%:M ->
  (mx_of cov)^T = mx_of cov ->
  [/\ R6 = block_mx (rot_of rot) 0 0 (rot_of rot),
      mx_of cov' = R6 *m mx_of cov *m R6^T,
      (mx_of cov')^T = mx_of cov',
      char_poly (mx_of cov') = char_poly (mx_of cov)
    & eigenvalue (mx_of cov') =1 eigenvalue (mx_of cov)].
Proof.
move=> ops R6 cov' orth sym.
have e: mx_of cov' = R6 *m mx_of cov *m R6^T.
  by rewrite /cov' /rotate_covariance !mx_of_mul mx_of_transpose.
have cp: char_poly (mx_of cov') = char_poly (mx_of cov).
  by rewrite e; apply: char_poly_orthonormal_conj; apply: rot_6d_orthonormal.
split=> //.
- exact: mx_of_rot_6d.
- by rewrite e !trmx_mul trmxK sym mulmxA.
- by move=> a; rewrite !eigenvalue_root_char cp.
Qed.

(** The quarter turn is orthonormal and the diagonal covariance is
    symmetric. *)
Lemma rot_quarter_turn_orthonormal :
  rot_of rot_quarter_turn *m (rot_of rot_quarter_turn)^T = 1%:M.
Proof.
apply/matrixP => i j; rewrite !mxE !big_ord_recl big_ord0.
by case: i => [[|[|[|?]]] ?] //; case: j => [[|[|[|?]]] ?] //;
   rewrite !mxE /=; ring.
Qed.

Lemma cov_diagonal_symmetric : (mx_of cov_diagonal)^T = mx_of cov_diagonal.
Proof.
apply/matrixP => i j; rewrite !mxE.
by case: i => [[|[|[|[|[|[|?]]]]]] ?] //; case: j => [[|[|[|[|[|[|?]]]]]] ?].
Qed.

Lemma C9_rotation_keeps_symmetry_and_spectrum_witness :
  let cov' := rotate_covariance (rat_ops id) rot_quarter_turn cov_diagonal in
  [/\ rot_of rot_quarter_turn *m (rot_of rot_quarter_turn)^T = 1%:M,
      (mx_of cov_diagonal)^T = mx_of cov_diagonal,
      (mx_of cov')^T = mx_of cov'
    & char_poly (mx_of cov') = char_poly (mx_of cov_diagonal)].
Proof.
have [_ _ sym cp _] :=
  @C9_rotation_keeps_symmetry_and_spectrum rat (fun x y => x < y) id
    (fun x => `|x|) rot_quarter_turn cov_diagonal
    rot_quarter_turn_orthonormal cov_diagonal_symmetric.
split=> //.
- exact: rot_quarter_turn_orthonormal.
- exact: cov_diagonal_symmetric.
Defined.

Lemma rat_10_neq0 : (10%:R : rat) <> 0.
Proof. by move/eqP; rewrite pnatr_eq0. Qed.

(** C5, as stated, fails twice over the rationals, whatever the
    projection: with [zero_altitude_] set the world-frame z is 0 where the
    composed transform has 10; and with the datum turned half a turn
    about x, a sample at the datum, 10 up, comes out at z = -10. *)
Lemma C5_counterexample :
  ~ (exists sq LLtoUTM,
       world_pose_claim (rat_ops sq) LLtoUTM
         (setDatum (rat_ops sq) LLtoUTM
            (fresh_node_zero_altitude (rat_ops sq))
            lat45q lon93Wq 0 (q_identity (rat_ops sq)) t0).1
         (sample45q sq))
  /\ ~ (exists sq LLtoUTM,
         at_datum_claim (rat_ops sq) LLtoUTM (fresh_node (rat_ops sq))
           lat45q lon93Wq (q_roll_pi (rat_ops sq)) t0 (sample45q sq)).
Proof.
split.
  case=> sq [LL].
  move/(_ _ _ (published_good LL _
                 (erefl : good_gps (rat_ops sq) (sample45q sq)))).
  move/(congr1 (fun p => p_z (position p))) => /= h.
  apply: rat_10_neq0; rewrite [RHS]h /alt10q.
  by field.
case=> sq [LL].
move/(_ (erefl _) (erefl _) _ _
        (published_good LL _ (erefl : good_gps (rat_ops sq) (sample45q sq)))).
move/(congr1 (@p_z _)) => /= h.
have: (10%:R : rat) + 10%:R = 0.
  rewrite -[X in X + _]h /alt10q.
  by field.
by rewrite -natrD; move/eqP; rewrite pnatr_eq0.
Qed.

(** C5 (amended): in a node whose stored inverse is the inverse of its
    stored datum transform, as [setDatum] leaves it, the world-frame pose
    of a sample without NaN is the pose of
    [mult(inverse(transform_utm2odom_), transform_utm2nav_)], its z
    replaced by 0 when [zero_altitude_] is set; and, in a field, after
    [setDatum(lat0, lon0, 0, q0)] with [q0] a rotation about z (no x and
    no y component) and [zero_altitude_] unset, a sample at the datum's
    latitude and longitude comes out at exactly [(0, 0, altitude)]. *)
Theorem C5_world_pose_is_composed_pose :
  (forall (D : Type) (ops : scalar_ops D) (LLtoUTM : D -> D -> UTM D)
          (st : State D) (msg : Odometry D),
     transform_utm2odom_inverse_ st = inverse ops (transform_utm2odom_ st) ->
     good_gps ops msg ->
     exists u w,
       published (navOdomCallback ops LLtoUTM st msg).2
         = [:: (utm_pub_, u); (odom_pub_, w)]
       /\ pose_pose (pose w)
          = zero_alt_pose ops st
              (toMsgPose ops (mult ops (inverse ops (transform_utm2odom_ st))
                                       (make_utm2nav ops LLtoUTM msg))))
  /\
  (forall (F : fieldType) (lt : F -> F -> bool) (sq ab : F -> F)
          (LLtoUTM : F -> F -> UTM F) (st0 : State F) (lat0 lon0 : F)
          (q0 : Quaternion F) (now : Time) (msg : Odometry F),
     let ops := exact_ops lt sq ab in
     let st := (setDatum ops LLtoUTM st0 lat0 lon0 0 q0 now).1 in
     q_x q0 = 0 -> q_y q0 = 0 -> zero_altitude_ st0 = false ->
     p_y (position (pose_pose (pose msg))) = lat0 ->
     p_x (position (pose_pose (pose msg))) = lon0 ->
     exists u w,
       published (navOdomCallback ops LLtoUTM st msg).2
         = [:: (utm_pub_, u); (odom_pub_, w)]
       /\ position (pose_pose (pose w))
          = mkPoint 0 0 (p_z (position (pose_pose (pose msg))))).
Proof.
split; first exact: world_pose_composed.
by move=> F lt sq ab LL st0 lat0 lon0 q0 now msg; exact: world_position_at_datum.
Qed.

Lemma C5_world_pose_is_composed_pose_witness :
  let ops := rat_ops id in
  let st := (setDatum ops LLtoUTM_plate (fresh_node ops) lat45q lon93Wq 0
               (q_yaw_pi ops) t0).1 in
  [/\ transform_utm2odom_inverse_ st = inverse ops (transform_utm2odom_ st),
      good_gps ops (sample45q id),
      q_x (q_yaw_pi ops) = 0 /\ q_y (q_yaw_pi ops) = 0
    & zero_altitude_ (fresh_node ops) = false]
  /\ (exists u w,
        published (navOdomCallback ops LLtoUTM_plate st (sample45q id)).2
          = [:: (utm_pub_, u); (odom_pub_, w)]
        /\ pose_pose (pose w)
           = zero_alt_pose ops st
               (toMsgPose ops
                  (mult ops (inverse ops (transform_utm2odom_ st))
                     (make_utm2nav ops LLtoUTM_plate (sample45q id)))))
  /\ (exists u w,
        published (navOdomCallback ops LLtoUTM_plate st (sample45q id)).2
          = [:: (utm_pub_, u); (odom_pub_, w)]
        /\ position (pose_pose (pose w)) = mkPoint 0 0 alt10q).
Proof.
move=> ops st; split; first by [].
have [composed at_datum] := C5_world_pose_is_composed_pose.
split.
  exact: (composed _ ops LLtoUTM_plate st (sample45q id) (erefl _) (erefl _)).
exact: (at_datum rat (fun x y => x < y) id (fun x => `|x|) LLtoUTM_plate
          (fresh_node ops) lat45q lon93Wq (q_yaw_pi ops) t0 (sample45q id)
          (erefl _) (erefl _) (erefl _) (erefl _) (erefl _)).
Defined.

End ExactClaims.

(** ** 14. The callback over a whole queue *)

Section QueueFacts.
Variable D : Type.
Variable ops : scalar_ops D.
Variable LLtoUTM : D -> D -> UTM D.

Local Notation callback := (navOdomCallback ops LLtoUTM).

Lemma warnings_cat (e1 e2 : seq (Event D)) :
  warnings (e1 ++ e2) = warnings e1 ++ warnings e2.
Proof. exact: pmap_cat. Qed.

(** The callback writes none of the members it reads. *)
Lemma callback_read_members (st : State D) (msg : Odometry D) :
  read_members (callback st msg).1 = read_members st.
Proof. by rewrite /navOdomCallback; case: (good_gps ops msg). Qed.

(** Two nodes that agree on the members the callback reads publish the
    same samples for the same input. *)
Lemma published_read_members (st1 st2 : State D) (msg : Odometry D) :
  read_members st1 = read_members st2 ->
  published (callback st1 msg).2 = published (callback st2 msg).2.
Proof.
case=> e1 e2 e3 e4 e5; rewrite /navOdomCallback.
case: (good_gps ops msg); rewrite /= !published_warn_prefix //=.
by rewrite /make_nav_in_odom /make_nav_in_utm /callback_rot /zero_alt_pose
           /zero_alt_point /= e1 e2 e3 e4 e5.
Qed.

Lemma spin_published_from (msgs : seq (Odometry D)) (st st0 : State D) :
  read_members st = read_members st0 ->
  published (spin ops LLtoUTM st msgs).2
    = flatten [seq published (callback st0 m).2 | m <- msgs].
Proof.
elim: msgs st => [|m msgs IH] st e //=.
rewrite spin_cons published_cat /= (published_read_members m e).
by rewrite (IH (callback st m).1) // callback_read_members.
Qed.

(** X1: what the node publishes for a sample does not depend on the
    samples it processed before: over any queue, the published samples
    are, in order, those the callback would publish for each sample from
    the node as it was before the queue. *)
Theorem spin_outputs_per_sample (st : State D) (msgs : seq (Odometry D)) :
  published (spin ops LLtoUTM st msgs).2
    = flatten [seq published (callback st m).2 | m <- msgs].
Proof. exact: spin_published_from. Qed.

(** X2: over any queue the node publishes exactly two samples for each
    input without NaN in its position and none for the others. *)
Theorem spin_two_per_good_sample (st : State D) (msgs : seq (Odometry D)) :
  size (published (spin ops LLtoUTM st msgs).2)
    = 2 * count (good_gps ops) msgs.
Proof.
elim: msgs st => [|m msgs IH] st //=.
rewrite spin_cons published_cat size_cat IH mulnDr /=.
case good: (good_gps ops m); first by rewrite published_good.
by rewrite (callback_bad LLtoUTM st good) published_warn_prefix.
Qed.

(** X3: processing samples never touches the datum: after any queue the
    stored datum transform, its inverse, the zone and [has_datum_], and
    every member the callback reads, are as before the queue. *)
Theorem spin_keeps_datum (st : State D) (msgs : seq (Odometry D)) :
  let st' := (spin ops LLtoUTM st msgs).1 in
  datum_of st' = datum_of st /\ read_members st' = read_members st.
Proof.
elim: msgs st => [|m msgs IH] st //=.
rewrite spin_cons /=.
have [-> ->] := IH (callback st m).1.
have [-> _ _ _] := callback_frame ops LLtoUTM st m.
by rewrite callback_read_members.
Qed.

(** X4: every sample published over a queue, in either frame, carries
    the stamp the node held in [gps_update_time_] before the queue. *)
Theorem spin_stamps (st : State D) (msgs : seq (Odometry D)) :
  [seq stamp (header pm.2) | pm <- published (spin ops LLtoUTM st msgs).2]
    = nseq (2 * count (good_gps ops) msgs) (gps_update_time_ st).
Proof.
rewrite (spin_published_from msgs (erefl (read_members st))).
elim: msgs => [|m msgs IH] //=.
rewrite map_cat IH mulnDr nseqD; congr (_ ++ _).
case good: (good_gps ops m); last first.
  by rewrite (callback_bad LLtoUTM st good) published_warn_prefix.
rewrite published_good //=.
by have [_ -> _ _] := callback_frame ops LLtoUTM st m.
Qed.

Lemma callback_warn_count (st : State D) (msg : Odometry D) :
  count (String.eqb empty_frame_id_text) (warnings (callback st msg).2)
    = warns_empty_frame_id st msg.
Proof.
rewrite /navOdomCallback /empty_frame_id_events.
by case: (good_gps ops msg); case: (warns_empty_frame_id st msg).
Qed.

Lemma callback_warned (st : State D) (msg : Odometry D) :
  warned_empty_frame_id_ (callback st msg).1
    = warns_empty_frame_id st msg || warned_empty_frame_id_ st.
Proof. by rewrite /navOdomCallback; case: (good_gps ops msg). Qed.

Lemma spin_warn_count (msgs : seq (Odometry D)) (st : State D) :
  count (String.eqb empty_frame_id_text)
        (warnings (spin ops LLtoUTM st msgs).2)
    <= ~~ warned_empty_frame_id_ st.
Proof.
elim: msgs st => [|m msgs IH] st //=.
rewrite spin_cons warnings_cat count_cat callback_warn_count /=.
have := IH (callback st m).1; rewrite callback_warned.
rewrite /warns_empty_frame_id.
by case: (frame_id (header m)) => [|a f];
   case: (warned_empty_frame_id_ st) => //=; case: (count _ _).
Qed.

(** X5: the empty-frame warning is logged at most once over any queue,
    however many samples come with an empty [frame_id], and never when it
    was logged before the queue. *)
Theorem empty_frame_warning_once (st : State D) (msgs : seq (Odometry D)) :
  let n := count (String.eqb empty_frame_id_text)
             (warnings (spin ops LLtoUTM st msgs).2) in
  n <= 1 /\ (warned_empty_frame_id_ st -> n = 0).
Proof.
move=> n; have := spin_warn_count msgs st; rewrite -/n.
by case: (warned_empty_frame_id_ st) => /=; case: n => // -[].
Qed.

(** X6: the published samples never carry the input's [child_frame_id]
    or sequence number: both come out empty and zero, under the frame
    names [utm] and [world_frame_id_], the UTM-frame sample first. *)
Theorem published_metadata (st : State D) (msg : Odometry D) :
  [seq (p.1, frame_id (header p.2), child_frame_id p.2, seq_no (header p.2))
  | p <- published (callback st msg).2]
  = if good_gps ops msg
    then [:: (utm_pub_, "utm"%string, ""%string, 0);
             (odom_pub_, world_frame_id_ st, ""%string, 0)]
    else [::].
Proof.
case good: (good_gps ops msg); last first.
  by rewrite (callback_bad LLtoUTM st good) published_warn_prefix.
by rewrite published_good //= /navOdomCallback good.
Qed.

(** X7: both published samples carry the same covariance array, and it
    is the rotated matrix laid out in rows of three: entries 0 to 17 hold
    columns 0 to 2 of rows 0 to 5, entries 18 to 20 hold columns 3 to 5 of
    row 5, and entries 21 to 35 are zero. *)
Theorem published_covariance_layout (st : State D) (msg : Odometry D) :
  let M := rotate_covariance ops (callback_rot ops st)
             (populate_covariance ops (pose_covariance (pose msg))) in
  [seq pose_covariance (pose p.2) | p <- published (callback st msg).2]
  = if good_gps ops msg
    then [:: covariance_layout ops M; covariance_layout ops M] else [::].
Proof.
move=> M; case good: (good_gps ops msg); last first.
  by rewrite (callback_bad LLtoUTM st good) published_warn_prefix.
by rewrite published_good //= /navOdomCallback good /= copy_covariance_layout.
Qed.

(** X8: the published covariance does not depend on the datum: a call of
    [setDatum], with any arguments, leaves the covariance arrays the node
    publishes for a sample unchanged. *)
Theorem covariance_ignores_datum (st : State D) (msg : Odometry D)
    (lat lon alt : D) (q : Quaternion D) (now : Time) :
  [seq pose_covariance (pose p.2)
  | p <- published
           (callback (setDatum ops LLtoUTM st lat lon alt q now).1 msg).2]
  = [seq pose_covariance (pose p.2) | p <- published (callback st msg).2].
Proof.
case good: (good_gps ops msg).
  by rewrite !published_good //= /navOdomCallback good.
by rewrite !(callback_bad LLtoUTM _ good) !published_warn_prefix.
Qed.

(** X9: a second [setDatum] replaces the first completely: the node and
    the broadcast are those of the second call alone. *)
Theorem setDatum_overwrites (st : State D)
    (lat1 lon1 alt1 lat2 lon2 alt2 : D) (q1 q2 : Quaternion D)
    (now1 now2 : Time) :
  setDatum ops LLtoUTM (setDatum ops LLtoUTM st lat1 lon1 alt1 q1 now1).1
    lat2 lon2 alt2 q2 now2
  = setDatum ops LLtoUTM st lat2 lon2 alt2 q2 now2.
Proof. by []. Qed.

(** X10: with [zero_altitude_] set, every published sample has altitude
    zero, in both frames. *)
Theorem zero_altitude_outputs (st : State D) (msg : Odometry D) :
  zero_altitude_ st ->
  [seq p_z (position (pose_pose (pose pm.2)))
  | pm <- published (callback st msg).2]
  = nseq (2 * good_gps ops msg) (c0 ops).
Proof.
move=> za; case good: (good_gps ops msg); last first.
  by rewrite (callback_bad LLtoUTM st good) published_warn_prefix.
by rewrite published_good //= /navOdomCallback good /= za.
Qed.

End QueueFacts.

Lemma zero_altitude_outputs_witness :
  zero_altitude_ (fresh_node_zero_altitude float_ops) /\
  [seq p_z (position (pose_pose (pose pm.2)))
  | pm <- published (navOdomCallback float_ops LLtoUTM_plate
                       (fresh_node_zero_altitude float_ops) sample45).2]
  = [:: 0%float; 0%float].
Proof.
split; first by [].
exact: (@zero_altitude_outputs _ float_ops LLtoUTM_plate
          (fresh_node_zero_altitude float_ops) sample45 (erefl true)).
Defined.

(** ** 15. Start-up, case by case *)

(** What lines 92 to 113 do, after a reading of the parameter that
    published and broadcast nothing and failed no assertion. *)
Lemma run_set_datum_facts (D : Type) (ops : scalar_ops D)
    (LLtoUTM : D -> D -> UTM D) (dsin dcos : D -> D)
    (appendPrefix : string -> string -> string)
    (st : State D) (params : RunParams D) (now : Time)
    (d : D * D * D) (ev : seq (Event D)) :
  published ev = [::] -> broadcasts ev = [::] -> aborted ev = false ->
  let r := run_set_datum ops LLtoUTM dsin dcos appendPrefix st params now d ev in
  [/\ aborted r.2 = false,
      has_datum_ r.1 /\ size (broadcasts r.2) = 1,
      published r.2 = [::] /\ zero_altitude_ r.1 = zero_altitude_ st,
      v_z (m_origin (transform_utm2odom_ r.1)) = c0 ops
    & transform_utm2odom_inverse_ r.1 = inverse ops (transform_utm2odom_ r.1)].
Proof.
case: d => [[lat lon] yaw] pub bc ab; rewrite /run_set_datum /=.
rewrite /aborted has_cat -/(aborted ev) ab /published /broadcasts !pmap_cat.
rewrite -/(published ev) -/(broadcasts ev) pub bc.
by case: (dlt _ _ _).
Qed.

(** X11: start-up sets the datum, and broadcasts it once, exactly when
    line 113 is reached: for a [datum] array of three entries or more, and
    for a parameter whose reading throws.  An array of fewer than three
    entries and a value that is no array fail an assertion: the process
    is aborted before the datum is touched, and no sample is ever
    published.  With no parameter the datum members are left as they
    were.  A datum set at start-up has altitude 0, and its stored inverse
    is the inverse of its stored transform.  Start-up publishes no sample
    and loads the altitude flag. *)
Theorem run_setup_datum_cases (D : Type) (ops : scalar_ops D)
    (LLtoUTM : D -> D -> UTM D) (dsin dcos : D -> D)
    (appendPrefix : string -> string -> string)
    (datum_text_round_trip : D -> D -> D -> D * D * D)
    (st : State D) (params : RunParams D) (now : Time) :
  let r := run_setup ops LLtoUTM dsin dcos appendPrefix datum_text_round_trip
             st params now in
  let sets := datum_reaches_setDatum params in
  [/\ aborted r.2 = datum_rejected params,
      has_datum_ r.1 = sets || has_datum_ st /\ size (broadcasts r.2) = sets,
      published r.2 = [::] /\ zero_altitude_ r.1 = param_zero_altitude params,
      if sets
      then v_z (m_origin (transform_utm2odom_ r.1)) = c0 ops
           /\ transform_utm2odom_inverse_ r.1
              = inverse ops (transform_utm2odom_ r.1)
      else datum_of r.1 = datum_of st
    & forall msgs,
        published (run ops LLtoUTM dsin dcos appendPrefix
                     datum_text_round_trip st params now msgs).2
        = if datum_rejected params then [::]
          else published (spin ops LLtoUTM r.1 msgs).2].
Proof.
have set_datum := @run_set_datum_facts D ops LLtoUTM dsin dcos appendPrefix.
rewrite /run /datum_rejected /datum_reaches_setDatum.
case: params set_datum => b z [[n lat lon yaw| |message type]|] p set_datum;
  rewrite /run_setup /=.
- case: ltnP => n3 /=; first by split=> // msgs; rewrite ltnNge (ltnW n3).
  set ev := (if (3 < n)%N then _ else _).
  have [] := set_datum (set_run_params st b z) (mkRunParams b z
               (Some (DatumValues n lat lon yaw)) p) now
               (datum_text_round_trip lat lon yaw) ev.
  + by rewrite /ev; case: (3 < n).
  + by rewrite /ev; case: (3 < n).
  + by rewrite /ev; case: (3 < n).
  case: (run_set_datum _ _ _ _ _ _ _ _ _ _) => s ev' /= ab [hd bc] [pub za] vz inv.
  rewrite ab hd bc pub za /=; split=> // msgs.
  by case: (spin _ _ _ _) => s' ev2 /=; rewrite published_cat pub.
- by split.
- by case: (dlt _ _ _) => /=; split=> // msgs; case: (spin _ _ _ _).
- split=> // msgs.
  by case: (spin _ _ _ _) => s' ev2.
Qed.

(** ** 16. More of the arithmetic without rounding *)

Section ExactNode.
Variable F : fieldType.
Variables (lt : F -> F -> bool) (sq ab : F -> F).

Local Open Scope ring_scope.
Local Notation ops := (exact_ops lt sq ab).

(** The matrix of a quaternion of non-zero norm is orthonormal. *)
Lemma rot_of_setRotation_orthonormal (q : Quaternion F) :
  length2 ops q != 0 ->
  rot_of (setRotation ops q) *m (rot_of (setRotation ops q))^T = 1%:M.
Proof.
case: q => x y z w /=; rewrite /length2 /= => d0.
apply/matrixP => i j; rewrite !mxE !big_ord_recl big_ord0.
by case: i => [[|[|[|?]]] ?] //; case: j => [[|[|[|?]]] ?] //;
   rewrite !mxE /=; field.
Qed.

Lemma mx_of_populate_symmetric (cov : seq F) :
  symmetric_array ops cov ->
  (mx_of (populate_covariance ops cov))^T = mx_of (populate_covariance ops cov).
Proof.
move=> sym; rewrite populate_covariance_layout mx_of_tab.
by apply/matrixP => i j; rewrite !mxE sym.
Qed.

(** X12: whenever the quaternion the callback reads from
    [utm_world_trans_inverse_] has non-zero norm, the covariance matrix
    the callback stores for a sample with a symmetric covariance array is
    symmetric and has the characteristic polynomial, hence the eigenvalues
    and the trace (the total variance), of the sample's matrix. *)
Theorem callback_covariance_spectrum (LLtoUTM : F -> F -> UTM F)
    (st : State F) (msg : Odometry F) :
  let q := Transform_getRotation ops (utm_world_trans_inverse_ st) in
  let C := mx_of (populate_covariance ops (pose_covariance (pose msg))) in
  let C' := mx_of (transform_utm2nav_covariance_
                     (navOdomCallback ops LLtoUTM st msg).1) in
  length2 ops q != 0 ->
  symmetric_array ops (pose_covariance (pose msg)) ->
  [/\ C'^T = C', char_poly C' = char_poly C & \tr C' = \tr C].
Proof.
move=> q C C' d0 sym.
have good: good_gps ops msg by [].
have [_ e _ _] := callback_good_state LLtoUTM st good.
have orth := @rot_6d_orthonormal _ lt sq ab _ (rot_of_setRotation_orthonormal d0).
set R6 := mx_of (make_rot_6d ops (setRotation ops q)) in orth.
have eC: C' = R6 *m C *m R6^T.
  by rewrite /C' e /rotate_covariance !mx_of_mul mx_of_transpose.
have symC: C^T = C by apply: mx_of_populate_symmetric.
have cp: char_poly C' = char_poly C.
  by rewrite eC; apply: char_poly_orthonormal_conj.
split=> //.
  by rewrite eC !trmx_mul trmxK symC mulmxA.
have := @char_poly_trace _ _ C' isT.
by rewrite cp (@char_poly_trace _ _ C isT) => /oppr_inj.
Qed.

(** X13: for a datum quaternion of non-zero norm, the two transforms
    [setDatum] stores are inverse to each other: composed in either
    order they give the identity transform. *)
Theorem datum_inverse_law (LLtoUTM : F -> F -> UTM F) (st : State F)
    (lat lon alt : F) (q : Quaternion F) (now : Time) :
  let st' := (setDatum ops LLtoUTM st lat lon alt q now).1 in
  length2 ops q != 0 ->
  mult ops (transform_utm2odom_inverse_ st') (transform_utm2odom_ st')
    = Transform_identity ops
  /\ mult ops (transform_utm2odom_ st') (transform_utm2odom_inverse_ st')
    = Transform_identity ops.
Proof.
case: q => x y z w /=; rewrite /length2 /= => d0.
rewrite /mult /inverse /xform /mulMM /tdot /mulMV /dot /transpose /setRotation
        /Transform_identity /=.
split; congr mkTransform.
- by congr mkMatrix3x3; congr mkVector3; field.
- by congr mkVector3; field.
- by congr mkMatrix3x3; congr mkVector3; field.
- by congr mkVector3; field.
Qed.

(** X14: after [setDatum(lat0, lon0, alt0, q0)], the UTM-frame position
    of a sample is its projection with its altitude, and its world-frame
    position is the offset of that point from the datum point, turned by
    the transpose of the datum's matrix; under [zero_altitude_] the z of
    both is 0. *)
Theorem world_position_formula (LLtoUTM : F -> F -> UTM F) (st0 : State F)
    (lat0 lon0 alt0 : F) (q0 : Quaternion F) (now : Time) (msg : Odometry F) :
  let st := (setDatum ops LLtoUTM st0 lat0 lon0 alt0 q0 now).1 in
  let p := position (pose_pose (pose msg)) in
  let utm := LLtoUTM (p_y p) (p_x p) in
  let utm0 := LLtoUTM lat0 lon0 in
  let d := mkVector3 (easting utm - easting utm0)
                     (northing utm - northing utm0) (p_z p - alt0) in
  let v := mulMV ops (transpose (setRotation ops q0)) d in
  [seq position (pose_pose (pose pm.2))
  | pm <- published (navOdomCallback ops LLtoUTM st msg).2]
  = [:: mkPoint (easting utm) (northing utm)
          (if zero_altitude_ st0 then 0 else p_z p);
        mkPoint (v_x v) (v_y v) (if zero_altitude_ st0 then 0 else v_z v)].
Proof.
move=> st p utm utm0 d v.
have good: good_gps ops msg by [].
rewrite published_good //= /zero_alt_point /=.
case: (zero_altitude_ st0); congr [:: _; _]; congr mkPoint;
  rewrite /v /d /utm /utm0 /p /dot /=; set s := (_ / _); ring.
Qed.

End ExactNode.

Section ExactNodeWitnesses.
Local Open Scope ring_scope.

Lemma cov_diagonal_array_symmetric :
  symmetric_array (rat_ops id) cov_diagonal_array.
Proof.
by do 7?[case=> //]; move=> j _; do 7?[case: j => [|j] //].
Qed.

Lemma callback_covariance_spectrum_witness :
  let ops := rat_ops id in
  let C := mx_of (populate_covariance ops cov_diagonal_array) in
  let cov' := transform_utm2nav_covariance_
                (navOdomCallback ops LLtoUTM_plate turned_node
                   sample_diagonal).1 in
  let C' := mx_of cov' in
  [/\ Transform_getRotation ops (utm_world_trans_inverse_ turned_node)
        = mkQuaternion 0 0 (1 / 2%:R) 1
      /\ length2 ops
           (Transform_getRotation ops (utm_world_trans_inverse_ turned_node))
         != 0,
      symmetric_array ops cov_diagonal_array,
      mx_get ops cov' 0 0 = 41%:R / 25%:R /\ mx_get ops cov' 0 1 = - (12%:R / 25%:R),
      C'^T = C' /\ \tr C' = \tr C
    & char_poly C' = char_poly C].
Proof.
move=> ops C cov' C'.
have d0: length2 ops
           (Transform_getRotation ops (utm_world_trans_inverse_ turned_node))
         != 0 by [].
have [sym cp tr] :=
  @callback_covariance_spectrum rat (fun x y => x < y) id (fun x => `|x|)
    LLtoUTM_plate turned_node sample_diagonal d0 cov_diagonal_array_symmetric.
split; [split; [| exact: d0] | exact: cov_diagonal_array_symmetric | split
       | by split | exact: cp].
- by congr mkQuaternion; apply/eqP.
- by apply/eqP.
- by apply/eqP.
Defined.

Lemma datum_inverse_law_witness :
  let ops := rat_ops id in
  let st' := (setDatum ops LLtoUTM_plate (fresh_node ops) lat45q lon93Wq 0
                (q_yaw_pi ops) t0).1 in
  length2 ops (q_yaw_pi ops) != 0
  /\ mult ops (transform_utm2odom_inverse_ st') (transform_utm2odom_ st')
     = Transform_identity ops.
Proof.
move=> ops st'.
have d0: length2 ops (q_yaw_pi ops) != 0 by [].
split; first exact: d0.
by have [] := @datum_inverse_law rat (fun x y => x < y) id (fun x => `|x|)
                LLtoUTM_plate (fresh_node ops) lat45q lon93Wq 0
                (q_yaw_pi ops) t0 d0.
Defined.

End ExactNodeWitnesses.
